(** * AgentIndexer (src/core/indexer.ts): discovery and search over a subgraph

    A shallow embedding of the [AgentIndexer] class and of the JavaScript
    built-ins it calls, followed by the properties of its three operations
    [getAgent], [searchAgents] and [searchAgentsByReputation].

    Conventions of the embedding.
    - A JavaScript string is a [string]: a sequence of code units, here the
      code units below 256.
    - A JavaScript number that the code treats as an integer is [NaN] or
      [Num z] with [z : Z], and [add], [String_] and [parseInt] compute with
      the integer itself. JavaScript agrees with them on the safe integers
      (at most 2^53 - 1 in absolute value); beyond these its sums and parsed
      values are rounded to a double and [String] changes to exponent form
      from 10^21. The properties below that state the decimal text of a
      number, or the integer read from a text, carry the hypothesis
      [safeInteger].
      [-0] and [+0] are both [Num 0]: the code never observes the
      difference.
    - An optional field that is absent or [undefined] is [None]; so is a
      [null] where the code treats the two alike ([?.], [||], [??] and
      truthiness tests).
    - An [async] method is a computation in the monad [Async]: it returns a
      value or throws, and records every request made to the subgraph
      client. *)

From Stdlib Require Import ZArith String Ascii List Bool Lia.
From Stdlib Require Import DecimalString DecimalPos.
From Stdlib Require QArith.
From stdpp Require Import base list strings.

Local Open Scope string_scope.
Local Open Scope Z_scope.

(** ** JavaScript numbers *)

Inductive number : Type :=
| NaN
| Num (z : Z).

Definition number_eqb (a b : number) : bool :=
  match a, b with
  | NaN, NaN => true
  | Num x, Num y => x =? y
  | _, _ => false
  end.

(** [a + b] on numbers: the sum of the integers, which is the sum of the code
    when it is a safe integer. *)
Definition add (a b : number) : number :=
  match a, b with
  | Num x, Num y => Num (x + y)
  | _, _ => NaN
  end.

(** [String(n)] and [n.toString()]: the decimal numeral of the integer, which
    is the text of the code for the safe integers. *)
Definition String_ (n : number) : string :=
  match n with
  | NaN => "NaN"
  | Num z => NilZero.string_of_int (Z.to_int z)
  end.

(** ** JavaScript strings *)

(** [WhiteSpace] and [LineTerminator] code units below 256: TAB, LF, VT, FF,
    CR, SP and NBSP. *)
Definition isWhiteSpace (c : ascii) : bool :=
  let n := N_of_ascii c in
  ((9 <=? n) && (n <=? 13) || (n =? 32) || (n =? 160))%N.

Fixpoint trimStart (s : string) : string :=
  match s with
  | String c r => if isWhiteSpace c then trimStart r else s
  | EmptyString => EmptyString
  end.

Definition digitValue (c : ascii) : option Z :=
  let n := Z.of_N (N_of_ascii c) in
  if (48 <=? n) && (n <=? 57) then Some (n - 48) else None.

(** The value of the longest prefix of decimal digits of [s]; [acc] is the
    value read so far, [None] while no digit has been read. *)
Fixpoint digitsPrefix (s : string) (acc : option Z) : option Z :=
  match s with
  | String c r =>
      match digitValue c with
      | Some d => digitsPrefix r (Some (10 * default 0 acc + d))
      | None => acc
      end
  | EmptyString => acc
  end.

(** [s] without its first code unit when that is a sign. *)
Definition unsigned (s : string) : string :=
  match s with
  | String "-" r => r
  | String "+" r => r
  | _ => s
  end.

(** [parseInt(s, 10)]: leading white space is skipped, one sign is read, then
    the longest run of decimal digits; no digit gives [NaN]. The value is the
    integer that the digits write, which is the value of the code when it is
    a safe integer. *)
Definition parseInt (s : string) : number :=
  let S := trimStart s in
  let sign := match S with String "-" _ => -1 | _ => 1 end in
  let Z := unsigned S in
  match digitsPrefix Z None with
  | None => NaN
  | Some mathInt => Num (sign * mathInt)
  end.

(** [c.toLowerCase()] on one code unit: A-Z and the Latin-1 capitals. *)
Definition toLowerCaseUnit (c : ascii) : ascii :=
  let n := N_of_ascii c in
  if ((65 <=? n) && (n <=? 90)
      || (192 <=? n) && (n <=? 222) && negb (n =? 215))%N
  then ascii_of_N (n + 32)
  else c.

Fixpoint toLowerCase (s : string) : string :=
  match s with
  | String c r => String (toLowerCaseUnit c) (toLowerCase r)
  | EmptyString => EmptyString
  end.

(** [s.includes(sub)] on strings. *)
Fixpoint includes (s sub : string) : bool :=
  if String.prefix sub s then true
  else
    match s with
    | String _ r => includes r sub
    | EmptyString => false
    end.

(** [s.split(sep)] for a separator of one code unit. *)
Fixpoint split (sep : ascii) (s : string) : list string :=
  match s with
  | EmptyString => [EmptyString]
  | String c r =>
      if Ascii.eqb c sep then EmptyString :: split sep r
      else
        match split sep r with
        | h :: t => String c h :: t
        | [] => [String c EmptyString]
        end
  end.

(** Truthiness of an optional string: present and not empty. *)
Definition truthy (o : option string) : bool :=
  match o with
  | Some (String _ _) => true
  | _ => false
  end.

(** [a || b] on strings. *)
Definition or_else (o : option string) (d : string) : string :=
  match o with
  | Some (String c r) => String c r
  | _ => d
  end.

(** [a || undefined] on strings. *)
Definition or_undefined (o : option string) : option string :=
  if truthy o then o else None.

(** ** JavaScript arrays *)

(** [l.includes(x)] on an array of strings. *)
Definition includes_str (l : list string) (x : string) : bool :=
  existsb (String.eqb x) l.

(** [l.includes(x)] on an array of numbers (SameValueZero: NaN is found). *)
Definition includes_num (l : list number) (x : number) : bool :=
  existsb (number_eqb x) l.

(** [l.slice(0, end)] for an integer [end]: a negative [end] counts from the
    back of the array. *)
Definition slice0 {A : Type} (l : list A) (end_ : Z) : list A :=
  let len := Z.of_nat (length l) in
  let final := if end_ <? 0 then Z.max (len + end_) 0 else Z.min end_ len in
  take (Z.to_nat final) l.

(** [criterion.some(x => mine.includes(x))]. *)
Definition some_included (criterion mine : list string) : bool :=
  existsb (fun x => includes_str mine x) criterion.

(** ** Thrown values *)

Record Error : Type := { err_name : string; err_message : string }.

(** [new Error(msg)]. *)
Definition new_Error (msg : string) : Error :=
  {| err_name := "Error"; err_message := msg |}.

(** [`${error}`]: Error.prototype.toString. *)
Definition Error_toString (e : Error) : string :=
  match err_name e, err_message e with
  | EmptyString, m => m
  | n, EmptyString => n
  | n, m => n +:+ ": " +:+ m
  end.

(** ** Data model (models/interfaces.ts, as the indexer reads it) *)

(** The reputation score is carried through and never computed on. *)
Definition Score : Type := QArith_base.Q.

Record Extras : Type := { averageScore : option Score }.

Module AgentSummary.
Record t : Type := {
  chainId : number;
  agentId : string;
  name : option string;
  image : option string;
  description : string;
  owners : list string;
  operators : list string;
  mcp : bool;
  a2a : bool;
  ens : option string;
  did : option string;
  walletAddress : option string;
  supportedTrusts : option (list string);
  a2aSkills : option (list string);
  mcpTools : option (list string);
  mcpPrompts : option (list string);
  mcpResources : option (list string);
  active : bool;
  x402support : bool;
  extras : Extras
}.
End AgentSummary.
Abbreviation AgentSummary := AgentSummary.t.

Module SearchParams.
Record t : Type := {
  name : option string;
  mcp : option bool;
  a2a : option bool;
  ens : option string;
  did : option string;
  walletAddress : option string;
  supportedTrust : option (list string);
  a2aSkills : option (list string);
  mcpTools : option (list string);
  mcpPrompts : option (list string);
  mcpResources : option (list string);
  active : option bool;
  x402support : option bool;
  chains : option (list number)
}.

(** The object [{}]. *)
Definition empty : t :=
  {| name := None; mcp := None; a2a := None; ens := None; did := None;
     walletAddress := None; supportedTrust := None; a2aSkills := None;
     mcpTools := None; mcpPrompts := None; mcpResources := None;
     active := None; x402support := None; chains := None |}.
End SearchParams.
Abbreviation SearchParams := SearchParams.t.

(** The nested registration record of a reputation result. *)
Module RegistrationFile.
Record t : Type := {
  name : option string;
  image : option string;
  description : option string;
  mcpEndpoint : option string;
  a2aEndpoint : option string;
  ens : option string;
  did : option string;
  agentWallet : option string;
  supportedTrusts : option (list string);
  a2aSkills : option (list string);
  mcpTools : option (list string);
  mcpPrompts : option (list string);
  mcpResources : option (list string);
  active : option bool;
  x402support : option bool
}.
End RegistrationFile.
Abbreviation RegistrationFile := RegistrationFile.t.

(** A [chainId] as the subgraph gives it: a string or a number. *)
Inductive StringOrNumber : Type :=
| Str (s : string)
| Number (n : number).

Definition toString (v : StringOrNumber) : string :=
  match v with
  | Str s => s
  | Number n => String_ n
  end.

(** One record of the subgraph's reputation query. *)
Module ReputationAgent.
Record t : Type := {
  chainId : option StringOrNumber;
  id : option string;
  registrationFile : option RegistrationFile;
  owner : option string;
  operators : option (list string);
  averageScore : option Score
}.
End ReputationAgent.
Abbreviation ReputationAgent := ReputationAgent.t.

(** The arguments of [SubgraphClient.searchAgentsByReputation]. *)
Module ReputationQuery.
Record t : Type := {
  agents : option (list string);
  tags : option (list string);
  reviewers : option (list string);
  capabilities : option (list string);
  skills : option (list string);
  tasks : option (list string);
  names : option (list string);
  minAverageScore : option Score;
  includeRevoked : bool;
  first : Z;
  skip : Z;
  orderBy : string;
  orderDirection : string
}.
End ReputationQuery.
Abbreviation ReputationQuery := ReputationQuery.t.

(** ** The subgraph client and the effects of an operation *)

(** How a call ends: with a value, or with a thrown value. *)
Inductive Completion (A : Type) : Type :=
| Return (a : A)
| Throw (e : Error).
Arguments Return {A} a.
Arguments Throw {A} e.

(** core/subgraph-client.ts, by the three methods the indexer calls. *)
Module SubgraphClient.
Record t : Type := {
  getAgentById : string -> Completion (option AgentSummary);
  searchAgents : SearchParams -> Z -> number -> Completion (list AgentSummary);
  searchAgentsByReputation : ReputationQuery -> Completion (list ReputationAgent)
}.
End SubgraphClient.
Abbreviation SubgraphClient := SubgraphClient.t.

(** A request made to the subgraph client, with its arguments. *)
Inductive Call : Type :=
| GetAgentById (agentId : string)
| SearchAgents (params : SearchParams) (first : Z) (skip : number)
| SearchAgentsByReputation (query : ReputationQuery).

(** An operation maps the requests made so far to its completion and the
    requests made by its end. *)
Definition Async (A : Type) : Type := list Call -> Completion A * list Call.

Definition ret {A : Type} (a : A) : Async A :=
  fun log => (Return a, log).

Definition throw {A : Type} (e : Error) : Async A :=
  fun log => (Throw e, log).

Definition bind {A B : Type} (m : Async A) (k : A -> Async B) : Async B :=
  fun log =>
    match m log with
    | (Return a, log') => k a log'
    | (Throw e, log') => (Throw e, log')
    end.

(** [await client.method(args)]: the request is recorded, the client's
    completion is the result. *)
Definition await {A : Type} (c : Call) (r : Completion A) : Async A :=
  fun log => (r, (log ++ [c])%list).

(** [try { m } catch (error) { h error }]. *)
Definition try_catch {A : Type} (m : Async A) (h : Error -> Async A) : Async A :=
  fun log =>
    match m log with
    | (Throw e, log') => h e log'
    | done => done
    end.

(** One call of an operation, from an empty record of requests. *)
Definition run {A : Type} (m : Async A) : Completion A * list Call := m [].

Notation "x <- m ;; k" := (bind m (fun x => k))
  (at level 100, m at next level, right associativity).

(** ** class AgentIndexer *)

(** The result of both searches: [{ items, nextCursor }]. *)
Record Page : Type := {
  items : list AgentSummary;
  nextCursor : option string
}.

(** The object: [web3Client] is stored and never read. *)
Record AgentIndexer : Type := {
  subgraphClient : option SubgraphClient
}.

(** [o?.f]: a field of an object that may be absent. *)
Definition field {A B : Type} (f : A -> option B) (o : option A) : option B :=
  match o with
  | Some a => f a
  | None => None
  end.

(** The thirteen arguments passed to the subgraph's reputation query. *)
Definition reputationQuery
    (agents tags reviewers capabilities skills tasks names : option (list string))
    (minAverageScore : option Score) (includeRevoked : bool)
    (first skip : Z) (orderBy orderDirection : string) : ReputationQuery :=
  {| ReputationQuery.agents := agents;
     ReputationQuery.tags := tags;
     ReputationQuery.reviewers := reviewers;
     ReputationQuery.capabilities := capabilities;
     ReputationQuery.skills := skills;
     ReputationQuery.tasks := tasks;
     ReputationQuery.names := names;
     ReputationQuery.minAverageScore := minAverageScore;
     ReputationQuery.includeRevoked := includeRevoked;
     ReputationQuery.first := first;
     ReputationQuery.skip := skip;
     ReputationQuery.orderBy := orderBy;
     ReputationQuery.orderDirection := orderDirection |}.

Section Indexer.

(** utils/validation.ts, which is not part of this file: the canonical form
    of an address, taken as any total function on strings. *)
Variable normalizeAddress : string -> string.

(** *** _filterAgents: the tests of the callback, each [true] when its [if]
    is taken and the record is dropped *)

Definition rejects_name (params : SearchParams) (agent : AgentSummary) : bool :=
  match SearchParams.name params with
  | Some (String _ _ as name) =>
      negb match AgentSummary.name agent with
           | Some agent_name => includes (toLowerCase agent_name) (toLowerCase name)
           | None => false
           end
  | _ => false
  end.

Definition rejects_flag (criterion : option bool) (mine : bool) : bool :=
  match criterion with
  | Some wanted => negb (Bool.eqb mine wanted)
  | None => false
  end.

Definition rejects_address (criterion mine : option string) : bool :=
  match criterion, mine with
  | Some (String _ _ as wanted), Some (String _ _ as own) =>
      negb (String.eqb (normalizeAddress own) (normalizeAddress wanted))
  | _, _ => false
  end.

Definition rejects_did (params : SearchParams) (agent : AgentSummary) : bool :=
  match SearchParams.did params with
  | Some (String _ _ as did) =>
      negb match AgentSummary.did agent with
           | Some own => String.eqb own did
           | None => false
           end
  | _ => false
  end.

Definition rejects_list (criterion mine : option (list string)) : bool :=
  match criterion with
  | Some ((_ :: _) as wanted) => negb (some_included wanted (default [] mine))
  | _ => false
  end.

Definition rejects_chain (params : SearchParams) (agent : AgentSummary) : bool :=
  match SearchParams.chains params with
  | Some ((_ :: _) as chains) =>
      negb (includes_num chains (AgentSummary.chainId agent))
  | _ => false
  end.

(** Lines 95-182: the callback of [agents.filter]. *)
Definition keeps (params : SearchParams) (agent : AgentSummary) : bool :=
  if rejects_name params agent then false
  else if rejects_flag (SearchParams.mcp params) (AgentSummary.mcp agent) then false
  else if rejects_flag (SearchParams.a2a params) (AgentSummary.a2a agent) then false
  else if rejects_address (SearchParams.ens params) (AgentSummary.ens agent) then false
  else if rejects_did params agent then false
  else if rejects_address (SearchParams.walletAddress params)
            (AgentSummary.walletAddress agent) then false
  else if rejects_list (SearchParams.supportedTrust params)
            (AgentSummary.supportedTrusts agent) then false
  else if rejects_list (SearchParams.a2aSkills params)
            (AgentSummary.a2aSkills agent) then false
  else if rejects_list (SearchParams.mcpTools params)
            (AgentSummary.mcpTools agent) then false
  else if rejects_list (SearchParams.mcpPrompts params)
            (AgentSummary.mcpPrompts agent) then false
  else if rejects_list (SearchParams.mcpResources params)
            (AgentSummary.mcpResources agent) then false
  else if rejects_flag (SearchParams.active params) (AgentSummary.active agent) then false
  else if rejects_flag (SearchParams.x402support params)
            (AgentSummary.x402support agent) then false
  else if rejects_chain params agent then false
  else true.

Definition _filterAgents (agents : list AgentSummary) (params : SearchParams)
  : list AgentSummary :=
  List.filter (keeps params) agents.

(** *** getAgent *)

Definition getAgent (this : AgentIndexer) (agentId : string) : Async AgentSummary :=
  let not_found : Async AgentSummary :=
    throw (new_Error
             ("Agent " +:+ agentId +:+ " not found. Subgraph required for querying.")) in
  match subgraphClient this with
  | Some client =>
      agent <- await (GetAgentById agentId)
                     (SubgraphClient.getAgentById client agentId) ;;
      match agent with
      | Some agent => ret agent
      | None => not_found
      end
  | None => not_found
  end.

(** *** searchAgents

    [pageSize] is the argument after its default (50) is filled in;
    [params] and [cursor] may be absent. *)

(** Line 55: [cursor ? parseInt(cursor, 10) : 0]. *)
Definition decodeCursor (cursor : option string) : number :=
  match cursor with
  | Some (String _ _ as cursor) => parseInt cursor
  | _ => Num 0
  end.

Definition searchAgents (this : AgentIndexer) (params : option SearchParams)
    (pageSize : Z) (cursor : option string) : Async Page :=
  match subgraphClient this with
  | None => throw (new_Error "Subgraph client required for agent search")
  | Some client =>
      let searchParams := default SearchParams.empty params in
      let skip := decodeCursor cursor in
      agents <- await (SearchAgents searchParams (pageSize + 1) skip)
                      (SubgraphClient.searchAgents client searchParams
                                                   (pageSize + 1) skip) ;;
      let agents := _filterAgents agents searchParams in
      let hasMore := pageSize <? Z.of_nat (length agents) in
      let paginatedAgents := if hasMore then slice0 agents pageSize else agents in
      let nextCursor :=
        if hasMore then Some (String_ (add skip (Num pageSize))) else None in
      ret {| items := paginatedAgents; nextCursor := nextCursor |}
  end.

(** *** searchAgentsByReputation *)

(** Lines 206-213: the sort parameter, parsed to
    [(orderBy, orderDirection)]. *)
Definition parseSort (sort : list string) : string * string :=
  let orderBy := "createdAt" in
  let orderDirection := "desc" in
  match sort with
  | sort0 :: _ =>
      let sortField := split ":" sort0 in
      (or_else (sortField !! 0%nat) orderBy,
       or_else (sortField !! 1%nat) orderDirection)
  | [] => (orderBy, orderDirection)
  end.

(** Lines 233-260: the callback of [agentsData.map]. *)
Definition toAgentSummary (agent : ReputationAgent) : AgentSummary :=
  let regFile := ReputationAgent.registrationFile agent in
  {| AgentSummary.chainId :=
       parseInt (or_else (option_map toString (ReputationAgent.chainId agent)) "0");
     AgentSummary.agentId := or_else (ReputationAgent.id agent) "";
     AgentSummary.name := Some (or_else (field RegistrationFile.name regFile) "");
     AgentSummary.image := or_undefined (field RegistrationFile.image regFile);
     AgentSummary.description :=
       or_else (field RegistrationFile.description regFile) "";
     AgentSummary.owners :=
       match ReputationAgent.owner agent with
       | Some (String _ _ as owner) => [normalizeAddress owner]
       | _ => []
       end;
     AgentSummary.operators :=
       List.map normalizeAddress (default [] (ReputationAgent.operators agent));
     AgentSummary.mcp := truthy (field RegistrationFile.mcpEndpoint regFile);
     AgentSummary.a2a := truthy (field RegistrationFile.a2aEndpoint regFile);
     AgentSummary.ens := or_undefined (field RegistrationFile.ens regFile);
     AgentSummary.did := or_undefined (field RegistrationFile.did regFile);
     AgentSummary.walletAddress :=
       match field RegistrationFile.agentWallet regFile with
       | Some (String _ _ as agentWallet) => Some (normalizeAddress agentWallet)
       | _ => None
       end;
     AgentSummary.supportedTrusts :=
       Some (default [] (field RegistrationFile.supportedTrusts regFile));
     AgentSummary.a2aSkills :=
       Some (default [] (field RegistrationFile.a2aSkills regFile));
     AgentSummary.mcpTools :=
       Some (default [] (field RegistrationFile.mcpTools regFile));
     AgentSummary.mcpPrompts :=
       Some (default [] (field RegistrationFile.mcpPrompts regFile));
     AgentSummary.mcpResources :=
       Some (default [] (field RegistrationFile.mcpResources regFile));
     AgentSummary.active := default false (field RegistrationFile.active regFile);
     AgentSummary.x402support :=
       default false (field RegistrationFile.x402support regFile);
     AgentSummary.extras :=
       {| averageScore := ReputationAgent.averageScore agent |} |}.

(** [first], [skip], [includeRevoked] and [sort] are the arguments after
    their defaults (50, 0, false, ["createdAt:desc"]) are filled in. *)
Definition searchAgentsByReputation (this : AgentIndexer)
    (agents tags reviewers capabilities skills tasks names : option (list string))
    (minAverageScore : option Score) (includeRevoked : bool)
    (first skip : Z) (sort : list string) : Async Page :=
  match subgraphClient this with
  | None => throw (new_Error "Subgraph client required for reputation search")
  | Some client =>
      let '(orderBy, orderDirection) := parseSort sort in
      try_catch
        (let query :=
           reputationQuery agents tags reviewers capabilities skills tasks names
                           minAverageScore includeRevoked first skip
                           orderBy orderDirection in
         agentsData <- await (SearchAgentsByReputation query)
                             (SubgraphClient.searchAgentsByReputation client query) ;;
         let items := List.map toAgentSummary agentsData in
         let nextCursor :=
           if Z.of_nat (length items) =? first
           then Some (String_ (Num (skip + Z.of_nat (length items))))
           else None in
         ret {| items := items; nextCursor := nextCursor |})
        (fun error =>
           throw (new_Error
                    ("Failed to search agents by reputation: "
                     +:+ Error_toString error)))
  end.

End Indexer.

(** ** Indexers and sample data used in the examples *)

Definition unconfigured : AgentIndexer := {| subgraphClient := None |}.

Definition configured (client : SubgraphClient) : AgentIndexer :=
  {| subgraphClient := Some client |}.

(** A client that answers every request with the same data. *)
Definition fixedClient (found : option AgentSummary) (agents : list AgentSummary)
    (records : list ReputationAgent) : SubgraphClient :=
  {| SubgraphClient.getAgentById := fun _ => Return found;
     SubgraphClient.searchAgents := fun _ _ _ => Return agents;
     SubgraphClient.searchAgentsByReputation := fun _ => Return records |}.

(** Lower-casing stands for utils/validation.ts in the examples; the theorems
    are stated for every [normalizeAddress]. *)
Definition lowercaseAddress : string -> string := toLowerCase.

Definition agentNamed (agentId : string) (ens walletAddress : option string)
  : AgentSummary :=
  {| AgentSummary.chainId := Num 1;
     AgentSummary.agentId := agentId;
     AgentSummary.name := Some agentId;
     AgentSummary.image := None;
     AgentSummary.description := "";
     AgentSummary.owners := [];
     AgentSummary.operators := [];
     AgentSummary.mcp := true;
     AgentSummary.a2a := false;
     AgentSummary.ens := ens;
     AgentSummary.did := None;
     AgentSummary.walletAddress := walletAddress;
     AgentSummary.supportedTrusts := Some [];
     AgentSummary.a2aSkills := Some [];
     AgentSummary.mcpTools := Some [];
     AgentSummary.mcpPrompts := Some [];
     AgentSummary.mcpResources := Some [];
     AgentSummary.active := true;
     AgentSummary.x402support := false;
     AgentSummary.extras := {| averageScore := None |} |}.

Definition alice : AgentSummary := agentNamed "1:1" (Some "Alice.ETH") (Some "0xABCDEF").
Definition bob : AgentSummary := agentNamed "1:2" None None.
Definition carol : AgentSummary := agentNamed "1:3" (Some "carol.eth") (Some "0x123456").

Definition byEns (ens : string) : SearchParams :=
  {| SearchParams.name := None; SearchParams.mcp := None; SearchParams.a2a := None;
     SearchParams.ens := Some ens; SearchParams.did := None;
     SearchParams.walletAddress := None; SearchParams.supportedTrust := None;
     SearchParams.a2aSkills := None; SearchParams.mcpTools := None;
     SearchParams.mcpPrompts := None; SearchParams.mcpResources := None;
     SearchParams.active := None; SearchParams.x402support := None;
     SearchParams.chains := None |}.

Definition byWallet (walletAddress : string) : SearchParams :=
  {| SearchParams.name := None; SearchParams.mcp := None; SearchParams.a2a := None;
     SearchParams.ens := None; SearchParams.did := None;
     SearchParams.walletAddress := Some walletAddress;
     SearchParams.supportedTrust := None;
     SearchParams.a2aSkills := None; SearchParams.mcpTools := None;
     SearchParams.mcpPrompts := None; SearchParams.mcpResources := None;
     SearchParams.active := None; SearchParams.x402support := None;
     SearchParams.chains := None |}.

Definition recordWithChain (chainId : option StringOrNumber)
    (registrationFile : option RegistrationFile) : ReputationAgent :=
  {| ReputationAgent.chainId := chainId;
     ReputationAgent.id := Some "1:7";
     ReputationAgent.registrationFile := registrationFile;
     ReputationAgent.owner := None;
     ReputationAgent.operators := None;
     ReputationAgent.averageScore := None |}.

Definition fileWithEndpoints (mcpEndpoint a2aEndpoint : option string)
  : RegistrationFile :=
  {| RegistrationFile.name := Some "seven";
     RegistrationFile.image := None;
     RegistrationFile.description := None;
     RegistrationFile.mcpEndpoint := mcpEndpoint;
     RegistrationFile.a2aEndpoint := a2aEndpoint;
     RegistrationFile.ens := None;
     RegistrationFile.did := None;
     RegistrationFile.agentWallet := None;
     RegistrationFile.supportedTrusts := None;
     RegistrationFile.a2aSkills := None;
     RegistrationFile.mcpTools := None;
     RegistrationFile.mcpPrompts := None;
     RegistrationFile.mcpResources := None;
     RegistrationFile.active := None;
     RegistrationFile.x402support := None |}.

(** The items of a completed search; none when it threw. *)
Definition returned (c : Completion Page * list Call) : list AgentSummary :=
  match fst c with
  | Return page => items page
  | Throw _ => []
  end.

(** ** Notions used to state the properties *)

Definition isDigit (c : ascii) : bool :=
  match digitValue c with
  | Some _ => true
  | None => false
  end.

Definition startsWithDigit (s : string) : bool :=
  match s with
  | String c _ => isDigit c
  | EmptyString => false
  end.

(** The value of the decimal digits [d] read after the value [acc]. *)
Fixpoint uintValue (d : Decimal.uint) (acc : Z) : Z :=
  match d with
  | Decimal.Nil => acc
  | Decimal.D0 l => uintValue l (10 * acc + 0)
  | Decimal.D1 l => uintValue l (10 * acc + 1)
  | Decimal.D2 l => uintValue l (10 * acc + 2)
  | Decimal.D3 l => uintValue l (10 * acc + 3)
  | Decimal.D4 l => uintValue l (10 * acc + 4)
  | Decimal.D5 l => uintValue l (10 * acc + 5)
  | Decimal.D6 l => uintValue l (10 * acc + 6)
  | Decimal.D7 l => uintValue l (10 * acc + 7)
  | Decimal.D8 l => uintValue l (10 * acc + 8)
  | Decimal.D9 l => uintValue l (10 * acc + 9)
  end.

(** A string criterion that is absent or the empty string. *)
Definition blank (o : option string) : Prop := o = None \/ o = Some "".

Definition same_or_blank (a b : option string) : Prop :=
  a = b \/ (blank a /\ blank b).

(** Two criteria objects that agree on every field, except that name, ens, did
    and walletAddress may be absent in one and the empty string in the
    other. *)
Definition alike_up_to_blank (p q : SearchParams) : Prop :=
  same_or_blank (SearchParams.name p) (SearchParams.name q)
  /\ same_or_blank (SearchParams.ens p) (SearchParams.ens q)
  /\ same_or_blank (SearchParams.did p) (SearchParams.did q)
  /\ same_or_blank (SearchParams.walletAddress p) (SearchParams.walletAddress q)
  /\ SearchParams.mcp p = SearchParams.mcp q
  /\ SearchParams.a2a p = SearchParams.a2a q
  /\ SearchParams.supportedTrust p = SearchParams.supportedTrust q
  /\ SearchParams.a2aSkills p = SearchParams.a2aSkills q
  /\ SearchParams.mcpTools p = SearchParams.mcpTools q
  /\ SearchParams.mcpPrompts p = SearchParams.mcpPrompts q
  /\ SearchParams.mcpResources p = SearchParams.mcpResources q
  /\ SearchParams.active p = SearchParams.active q
  /\ SearchParams.x402support p = SearchParams.x402support q
  /\ SearchParams.chains p = SearchParams.chains q.

(** A text with no ':' in it. *)
Fixpoint no_colon (s : string) : bool :=
  match s with
  | String c r => negb (Ascii.eqb c ":") && no_colon r
  | EmptyString => true
  end.

(** A list criterion that is absent or the empty array. *)
Definition vacant {A : Type} (o : option (list A)) : Prop :=
  o = None \/ o = Some [].

Definition same_or_vacant {A : Type} (a b : option (list A)) : Prop :=
  a = b \/ (vacant a /\ vacant b).

(** Two criteria objects that agree on every field, except that the five
    capability lists and chains may be absent in one and the empty array in
    the other. *)
Definition alike_up_to_vacant (p q : SearchParams) : Prop :=
  SearchParams.name p = SearchParams.name q
  /\ SearchParams.mcp p = SearchParams.mcp q
  /\ SearchParams.a2a p = SearchParams.a2a q
  /\ SearchParams.ens p = SearchParams.ens q
  /\ SearchParams.did p = SearchParams.did q
  /\ SearchParams.walletAddress p = SearchParams.walletAddress q
  /\ same_or_vacant (SearchParams.supportedTrust p) (SearchParams.supportedTrust q)
  /\ same_or_vacant (SearchParams.a2aSkills p) (SearchParams.a2aSkills q)
  /\ same_or_vacant (SearchParams.mcpTools p) (SearchParams.mcpTools q)
  /\ same_or_vacant (SearchParams.mcpPrompts p) (SearchParams.mcpPrompts q)
  /\ same_or_vacant (SearchParams.mcpResources p) (SearchParams.mcpResources q)
  /\ SearchParams.active p = SearchParams.active q
  /\ SearchParams.x402support p = SearchParams.x402support q
  /\ same_or_vacant (SearchParams.chains p) (SearchParams.chains q).



(** A client of the examples whose every request throws [e]. *)
Definition failingClient (e : Error) : SubgraphClient :=
  {| SubgraphClient.getAgentById := fun _ => Throw e;
     SubgraphClient.searchAgents := fun _ _ _ => Throw e;
     SubgraphClient.searchAgentsByReputation := fun _ => Throw e |}.

(** Criteria with the three flags [mcp], [a2a] and [active] set and a chain
    list, for the examples. *)
Definition byFlags (mcp : option bool) (supportedTrust : option (list string))
    (chains : option (list number)) : SearchParams :=
  {| SearchParams.name := None; SearchParams.mcp := mcp; SearchParams.a2a := None;
     SearchParams.ens := None; SearchParams.did := None;
     SearchParams.walletAddress := None;
     SearchParams.supportedTrust := supportedTrust;
     SearchParams.a2aSkills := None; SearchParams.mcpTools := None;
     SearchParams.mcpPrompts := None; SearchParams.mcpResources := None;
     SearchParams.active := None; SearchParams.x402support := None;
     SearchParams.chains := chains |}.

Definition byName (name : string) : SearchParams :=
  {| SearchParams.name := Some name; SearchParams.mcp := None;
     SearchParams.a2a := None;
     SearchParams.ens := None; SearchParams.did := None;
     SearchParams.walletAddress := None; SearchParams.supportedTrust := None;
     SearchParams.a2aSkills := None; SearchParams.mcpTools := None;
     SearchParams.mcpPrompts := None; SearchParams.mcpResources := None;
     SearchParams.active := None; SearchParams.x402support := None;
     SearchParams.chains := None |}.

(** The error of [getAgent] for an agent that is not found. *)
Definition notFound (agentId : string) : Error :=
  new_Error ("Agent " +:+ agentId +:+ " not found. Subgraph required for querying.").

(** The prefix of the error that wraps a failed reputation query. *)
Definition reputationFailure : string := "Failed to search agents by reputation: ".

(** A reputation record of the examples with an owner, two operators and a
    registration file that names a wallet. *)
Definition ownedRecord : ReputationAgent :=
  {| ReputationAgent.chainId := Some (Str "1");
     ReputationAgent.id := Some "1:9";
     ReputationAgent.registrationFile :=
       Some {| RegistrationFile.name := Some "nine";
               RegistrationFile.image := None;
               RegistrationFile.description := None;
               RegistrationFile.mcpEndpoint := None;
               RegistrationFile.a2aEndpoint := None;
               RegistrationFile.ens := None;
               RegistrationFile.did := None;
               RegistrationFile.agentWallet := Some "0xABCDEF";
               RegistrationFile.supportedTrusts := None;
               RegistrationFile.a2aSkills := None;
               RegistrationFile.mcpTools := None;
               RegistrationFile.mcpPrompts := None;
               RegistrationFile.mcpResources := None;
               RegistrationFile.active := None;
               RegistrationFile.x402support := None |};
     ReputationAgent.owner := Some "0xAA11";
     ReputationAgent.operators := Some ["0xBB22"; "0xCC33"];
     ReputationAgent.averageScore := None |}.

(** Number.MAX_SAFE_INTEGER and the integers that a JavaScript number holds
    and adds exactly. *)
Definition MAX_SAFE_INTEGER : Z := 2 ^ 53 - 1.

Definition safeInteger (z : Z) : Prop :=
  - MAX_SAFE_INTEGER <= z <= MAX_SAFE_INTEGER.

(** The value of a text made of decimal digits only, read after [acc]. *)
Fixpoint digitsValue (s : string) (acc : Z) : option Z :=
  match s with
  | EmptyString => Some acc
  | String c r =>
      match digitValue c with
      | Some d => digitsValue r (10 * acc + d)
      | None => None
      end
  end.

(** [s] is the decimal numeral of [n]: digits only, at least one, whose value
    is [n], with no leading zero (the numeral of 0 is "0"). *)
Definition numeral (s : string) (n : Z) : Prop :=
  digitsValue s 0 = Some n
  /\ match s with
     | EmptyString => False
     | String "0" r => r = EmptyString
     | String _ _ => True
     end.

(** [s] is the decimal text of the integer [z]: its numeral, after a '-' when
    [z] is negative. *)
Definition decimalText (s : string) (z : Z) : Prop :=
  match s with
  | String "-" r => z < 0 /\ numeral r (- z)
  | _ => 0 <= z /\ numeral s z
  end.

(** ** getAgent *)

(** C1, as the code has it: with no subgraph client configured, getAgent
    throws a plain Error whose message is "Agent <id> not found. Subgraph
    required for querying.", and no request is made. This is the very error
    of a lookup that the subgraph answers with no agent: the code has one
    failure for both cases. *)
Theorem C1_getAgent_unconfigured (agentId : string) :
  run (getAgent unconfigured agentId)
  = (Throw (new_Error
              ("Agent " +:+ agentId +:+ " not found. Subgraph required for querying.")),
     [])
  /\ forall client,
       SubgraphClient.getAgentById client agentId = Return None ->
       fst (run (getAgent (configured client) agentId))
       = fst (run (getAgent unconfigured agentId)).
Proof.
  split; [reflexivity|].
  intros client Hnone. unfold run, getAgent, bind, await. cbn.
  rewrite Hnone. reflexivity.
Qed.

Lemma C1_getAgent_unconfigured_witness :
  fst (run (getAgent (configured (fixedClient None [] [])) "1:42"))
  = fst (run (getAgent unconfigured "1:42")).
Proof.
  apply (proj2 (C1_getAgent_unconfigured "1:42")). reflexivity.
Defined.

(** C1 as stated fails: for the id "1:42" and no subgraph client the thrown
    value is not a ConfigurationError and its message is not "backing index
    required". *)
Lemma C1_counterexample :
  ~ exists e,
      fst (run (getAgent unconfigured "1:42")) = Throw e
      /\ err_name e = "ConfigurationError"
      /\ err_message e = "backing index required".
Proof.
  intros (e & Hthrow & Hname & _). cbn in Hthrow.
  injection Hthrow as <-. discriminate Hname.
Qed.

(** ** parseInt *)

Lemma digitsPrefix_started (s : string) (a : Z) :
  exists v, digitsPrefix s (Some a) = Some v.
Proof.
  revert a. induction s as [|c r IH]; intros a; cbn.
  - eauto.
  - destruct (digitValue c); eauto.
Qed.

Lemma digitsPrefix_None (s : string) :
  digitsPrefix s None = None <-> startsWithDigit s = false.
Proof.
  destruct s as [|c r]; cbn; [tauto|].
  unfold isDigit. destruct (digitValue c) as [d|]; [|tauto].
  destruct (digitsPrefix_started r (10 * 0 + d)) as [v ->].
  split; discriminate.
Qed.

Lemma parseInt_unsigned (s : string) :
  parseInt s = NaN <-> digitsPrefix (unsigned (trimStart s)) None = None.
Proof.
  unfold parseInt.
  destruct (digitsPrefix (unsigned (trimStart s)) None); split; congruence.
Qed.

(** parseInt gives NaN exactly when, after leading white space and one
    optional sign, the text does not start with a decimal digit. *)
Lemma parseInt_NaN_iff (s : string) :
  parseInt s = NaN <-> startsWithDigit (unsigned (trimStart s)) = false.
Proof. rewrite parseInt_unsigned. apply digitsPrefix_None. Qed.

(** *** parseInt reads back what String writes *)

Lemma digitsPrefix_uint (d : Decimal.uint) (a : Z) :
  digitsPrefix (NilEmpty.string_of_uint d) (Some a) = Some (uintValue d a).
Proof.
  revert a. induction d; intros a; cbn; try reflexivity; apply IHd.
Qed.

Lemma digitsPrefix_uint_fresh (d : Decimal.uint) :
  d <> Decimal.Nil ->
  digitsPrefix (NilEmpty.string_of_uint d) None = Some (uintValue d 0).
Proof.
  destruct d; intros Hd; try congruence; cbn; apply digitsPrefix_uint.
Qed.

Lemma uintValue_acc (d : Decimal.uint) (p : positive) :
  uintValue d (Z.pos p) = Z.pos (Pos.of_uint_acc d p).
Proof.
  revert p. induction d; intros p; cbn [uintValue Pos.of_uint_acc];
    try reflexivity;
    match goal with
    | |- uintValue _ ?a = Z.pos (Pos.of_uint_acc _ ?q) =>
        replace a with (Z.pos q) by lia; apply IHd
    end.
Qed.

Lemma uintValue_of_uint (d : Decimal.uint) :
  uintValue d 0 = Z.of_N (Pos.of_uint d).
Proof.
  induction d; cbn [uintValue Pos.of_uint]; try reflexivity; try apply IHd;
    match goal with
    | |- uintValue _ ?a = _ =>
        change a with (Z.pos (Z.to_pos a)); apply uintValue_acc
    end.
Qed.

Lemma to_uint_not_Nil (p : positive) : Pos.to_uint p <> Decimal.Nil.
Proof.
  intros Hnil. pose proof (Unsigned.of_to p) as Hp.
  rewrite Hnil in Hp. discriminate Hp.
Qed.

Lemma uintValue_to_uint (p : positive) : uintValue (Pos.to_uint p) 0 = Z.pos p.
Proof. rewrite uintValue_of_uint, Unsigned.of_to. reflexivity. Qed.

Lemma string_of_uint_digits (d : Decimal.uint) :
  d <> Decimal.Nil ->
  NilZero.string_of_uint d = NilEmpty.string_of_uint d
  /\ trimStart (NilEmpty.string_of_uint d) = NilEmpty.string_of_uint d
  /\ unsigned (NilEmpty.string_of_uint d) = NilEmpty.string_of_uint d
  /\ startsWithDigit (NilEmpty.string_of_uint d) = true.
Proof. destruct d; intros Hd; try congruence; repeat split. Qed.

(** Every integer is read back from its decimal text. *)
Lemma parseInt_String_ (z : Z) : parseInt (String_ (Num z)) = Num z.
Proof.
  destruct z as [|p|p]; [reflexivity| |].
  - cbn [String_ Z.to_int NilZero.string_of_int].
    destruct (string_of_uint_digits _ (to_uint_not_Nil p)) as (-> & Ht & Hu & Hd).
    unfold parseInt. rewrite Ht, Hu.
    rewrite (digitsPrefix_uint_fresh _ (to_uint_not_Nil p)), uintValue_to_uint.
    destruct (NilEmpty.string_of_uint (Pos.to_uint p)) as [|c r]; [discriminate Hd|].
    destruct (Ascii.eqb_spec c "-") as [->|Hc]; [discriminate Hd|].
    replace (match String c r with String "-" _ => -1 | _ => 1 end) with 1;
      [reflexivity|].
    destruct c as [[] [] [] [] [] [] [] []]; try reflexivity. congruence.
  - cbn [String_ Z.to_int NilZero.string_of_int].
    destruct (string_of_uint_digits _ (to_uint_not_Nil p)) as (-> & Ht & Hu & Hd).
    assert (Hminus : forall r, trimStart (String "-" r) = String "-" r)
      by reflexivity.
    unfold parseInt. rewrite Hminus. cbn [unsigned].
    rewrite (digitsPrefix_uint_fresh _ (to_uint_not_Nil p)), uintValue_to_uint.
    reflexivity.
Qed.

(** *** Decimal text, independently of String and parseInt *)

Lemma digitsValue_uint (d : Decimal.uint) (a : Z) :
  digitsValue (NilEmpty.string_of_uint d) a = Some (uintValue d a).
Proof.
  revert a. induction d; intros a; cbn; try reflexivity; apply IHd.
Qed.

Lemma to_uint_no_leading_zero (p : positive) (l : Decimal.uint) :
  Pos.to_uint p <> Decimal.D0 l.
Proof.
  intros Hzero. pose proof (Unsigned.of_to p) as Hof.
  rewrite Hzero in Hof. cbn [Pos.of_uint] in Hof.
  pose proof (Unsigned.to_of l) as Hto. rewrite Hof in Hto.
  cbn [N.to_uint] in Hto. rewrite Hzero in Hto.
  destruct (Decimal.uint_eq_dec l Decimal.Nil) as [-> | Hl].
  - apply (Unsigned.to_uint_nonzero p). rewrite Hzero. reflexivity.
  - pose proof (DecimalFacts.nb_digits_unorm l Hl) as Hdigits.
    rewrite <- Hto in Hdigits. cbn [Decimal.nb_digits] in Hdigits. lia.
Qed.

Lemma numeral_to_uint (p : positive) :
  numeral (NilEmpty.string_of_uint (Pos.to_uint p)) (Z.pos p)
  /\ decimalText (NilEmpty.string_of_uint (Pos.to_uint p)) (Z.pos p).
Proof.
  assert (Hvalue : digitsValue (NilEmpty.string_of_uint (Pos.to_uint p)) 0
                   = Some (Z.pos p))
    by (rewrite digitsValue_uint, uintValue_to_uint; reflexivity).
  pose proof (to_uint_not_Nil p) as Hnil.
  pose proof (to_uint_no_leading_zero p) as Hzero.
  unfold decimalText, numeral. rewrite Hvalue.
  destruct (Pos.to_uint p) as [|l|l|l|l|l|l|l|l|l|l];
    [congruence|exfalso; exact (Hzero l eq_refl)|..];
    cbn [NilEmpty.string_of_uint]; repeat split; lia.
Qed.

(** String writes the decimal text of every integer. *)
Lemma String_decimalText (z : Z) : decimalText (String_ (Num z)) z.
Proof.
  destruct z as [|p|p].
  - cbn. repeat split; lia.
  - cbn [String_ Z.to_int NilZero.string_of_int].
    rewrite (proj1 (string_of_uint_digits _ (to_uint_not_Nil p))).
    apply numeral_to_uint.
  - cbn [String_ Z.to_int NilZero.string_of_int].
    rewrite (proj1 (string_of_uint_digits _ (to_uint_not_Nil p))).
    cbn [decimalText]. split; [lia|]. apply numeral_to_uint.
Qed.

Lemma digitsValue_prefix (s : string) (a n : Z) :
  digitsValue s a = Some n -> digitsPrefix s (Some a) = Some n.
Proof.
  revert a. induction s as [|c r IH]; intros a; cbn; [trivial|].
  destruct (digitValue c) as [d|]; [|discriminate]. apply IH.
Qed.

Lemma numeral_parsed (s : string) (n : Z) :
  numeral s n ->
  trimStart s = s /\ unsigned s = s /\ digitsPrefix s None = Some n
  /\ match s with String "-" _ => False | _ => True end.
Proof.
  intros [Hvalue Hshape]. destruct s as [|c r]; [contradiction|].
  cbn [digitsValue] in Hvalue. cbn [digitsPrefix].
  destruct (digitValue c) as [d|] eqn:Hdigit; [|discriminate Hvalue].
  apply digitsValue_prefix in Hvalue.
  assert (Hc : trimStart (String c r) = String c r
               /\ unsigned (String c r) = String c r
               /\ match String c r with String "-" _ => False | _ => True end).
  { clear Hvalue Hshape.
    destruct c as [[] [] [] [] [] [] [] []]; try discriminate Hdigit;
      repeat split. }
  destruct Hc as (Htrim & Hunsigned & Hminus).
  repeat split; assumption.
Qed.

(** parseInt reads the integer back from its decimal text. *)
Lemma parseInt_decimalText (s : string) (z : Z) :
  decimalText s z -> parseInt s = Num z.
Proof.
  intros Htext. destruct s as [|c r]; [destruct Htext as [_ [_ []]]|].
  destruct (Ascii.eqb_spec c "-") as [-> | Hc].
  - cbn [decimalText] in Htext. destruct Htext as [Hneg Hnumeral].
    destruct (numeral_parsed _ _ Hnumeral) as (_ & _ & Hdigits & _).
    assert (Hminus : trimStart (String "-" r) = String "-" r) by reflexivity.
    unfold parseInt. rewrite Hminus. cbn [unsigned]. rewrite Hdigits.
    f_equal. lia.
  - assert (Hplain : 0 <= z /\ numeral (String c r) z).
    { destruct c as [[] [] [] [] [] [] [] []]; try exact Htext. congruence. }
    destruct Hplain as [Hpos Hnumeral].
    destruct (numeral_parsed _ _ Hnumeral) as (Htrim & Hunsigned & Hdigits & _).
    unfold parseInt. rewrite Htrim, Hunsigned, Hdigits.
    replace (match String c r with String "-" _ => -1 | _ => 1 end) with 1;
      [f_equal; lia|].
    destruct c as [[] [] [] [] [] [] [] []]; try reflexivity. congruence.
Qed.

(** ** searchAgents *)

(** One call with a client configured: one request, then the page is built
    from the filtered answer. *)
Lemma searchAgents_run (normalizeAddress : string -> string)
    (client : SubgraphClient) (params : option SearchParams) (pageSize : Z)
    (cursor : option string) :
  let searchParams := default SearchParams.empty params in
  let skip := decodeCursor cursor in
  run (searchAgents normalizeAddress (configured client) params pageSize cursor)
  = (match SubgraphClient.searchAgents client searchParams (pageSize + 1) skip with
     | Return agents =>
         let filtered := _filterAgents normalizeAddress agents searchParams in
         let hasMore := pageSize <? Z.of_nat (length filtered) in
         Return {| items := if hasMore then slice0 filtered pageSize else filtered;
                   nextCursor :=
                     if hasMore then Some (String_ (add skip (Num pageSize)))
                     else None |}
     | Throw e => Throw e
     end,
     [SearchAgents searchParams (pageSize + 1) skip]).
Proof.
  intros searchParams skip.
  unfold run, searchAgents, bind, await, ret, configured. cbn.
  fold searchParams skip.
  destruct (SubgraphClient.searchAgents client searchParams (pageSize + 1) skip);
    reflexivity.
Qed.

Lemma decodeCursor_present (cursor : string) :
  cursor <> "" -> decodeCursor (Some cursor) = parseInt cursor.
Proof. destruct cursor; [congruence|reflexivity]. Qed.

Example parseInt_samples :
  parseInt "abc" = NaN /\ parseInt "-" = NaN /\ parseInt " 7" = Num 7
  /\ parseInt "12abc" = Num 12 /\ parseInt "-5" = Num (-5)
  /\ parseInt "1.5" = Num 1.
Proof. repeat split. Qed.

(** C2, as the code has it: a cursor that is present and not empty is decoded
    by parseInt and never rejected. The one request to the subgraph asks for
    pageSize + 1 records at the decoded offset, which is NaN exactly when the
    cursor, after leading white space and one optional sign, does not start
    with a decimal digit. The operation throws no error of its own: it
    returns a page whenever the request returns, and throws only what the
    request throws. *)
Theorem C2_cursor_is_parsed_not_validated
    (normalizeAddress : string -> string) (client : SubgraphClient)
    (params : option SearchParams) (pageSize : Z) (cursor : string) :
  cursor <> "" ->
  let searchParams := default SearchParams.empty params in
  let off := parseInt cursor in
  let call :=
    run (searchAgents normalizeAddress (configured client) params pageSize
                      (Some cursor)) in
  snd call = [SearchAgents searchParams (pageSize + 1) off]
  /\ (off = NaN <-> startsWithDigit (unsigned (trimStart cursor)) = false)
  /\ (forall agents,
        SubgraphClient.searchAgents client searchParams (pageSize + 1) off
        = Return agents ->
        exists page, fst call = Return page)
  /\ (forall e,
        fst call = Throw e ->
        SubgraphClient.searchAgents client searchParams (pageSize + 1) off
        = Throw e).
Proof.
  intros Hne searchParams off call.
  subst call. rewrite searchAgents_run, (decodeCursor_present cursor Hne).
  cbn [fst snd]. fold searchParams off.
  split; [reflexivity|]. split; [apply parseInt_NaN_iff|]. split.
  - intros agents ->. eauto.
  - intros e.
    destruct (SubgraphClient.searchAgents client searchParams (pageSize + 1) off);
      [discriminate|congruence].
Qed.

Lemma C2_cursor_is_parsed_not_validated_witness :
  snd (run (searchAgents lowercaseAddress (configured (fixedClient None [alice] []))
                         None 50 (Some "abc")))
  = [SearchAgents SearchParams.empty 51 (parseInt "abc")]
  /\ parseInt "abc" = NaN.
Proof.
  destruct (C2_cursor_is_parsed_not_validated lowercaseAddress
              (fixedClient None [alice] []) None 50 "abc")
    as (Hcall & Hnan & _); [discriminate|].
  split; [exact Hcall|]. apply Hnan. reflexivity.
Defined.

(** C2 as stated fails: with the cursor "abc" the search throws nothing,
    returns the page of the one agent the subgraph answers with, and has
    requested 51 records at the offset NaN. No criterion is set, so
    normalizeAddress is not called. *)
Lemma C2_counterexample :
  run (searchAgents lowercaseAddress (configured (fixedClient None [alice] []))
                    None 50 (Some "abc"))
  = (Return {| items := [alice]; nextCursor := None |},
     [SearchAgents SearchParams.empty 51 NaN])
  /\ ~ exists e,
         fst (run (searchAgents lowercaseAddress
                                (configured (fixedClient None [alice] []))
                                None 50 (Some "abc"))) = Throw e
         /\ err_name e = "InvalidCursorError".
Proof.
  split; [reflexivity|].
  intros (e & Hthrow & _). discriminate Hthrow.
Qed.

(** *** Filtering and slicing only remove elements *)

Lemma filter_sublist {A : Type} (f : A -> bool) (l : list A) :
  List.filter f l `sublist_of` l.
Proof.
  induction l as [|x l IH]; cbn.
  - constructor.
  - destruct (f x); [apply sublist_skip|apply sublist_cons]; exact IH.
Qed.

Lemma slice0_sublist {A : Type} (l : list A) (end_ : Z) :
  slice0 l end_ `sublist_of` l.
Proof. unfold slice0. apply sublist_take. Qed.

Lemma slice0_take {A : Type} (l : list A) (end_ : Z) :
  0 <= end_ <= Z.of_nat (length l) ->
  slice0 l end_ = take (Z.to_nat end_) l.
Proof.
  intros Hend. unfold slice0.
  destruct (Z.ltb_spec end_ 0); [lia|].
  rewrite Z.min_l by lia. reflexivity.
Qed.

Lemma length_slice0 {A : Type} (l : list A) (end_ : Z) :
  0 <= end_ <= Z.of_nat (length l) ->
  Z.of_nat (length (slice0 l end_)) = end_.
Proof.
  intros Hend. rewrite slice0_take by exact Hend.
  rewrite length_take_le; lia.
Qed.

Lemma filterAgents_sublist (normalizeAddress : string -> string)
    (agents : list AgentSummary) (params : SearchParams) :
  _filterAgents normalizeAddress agents params `sublist_of` agents.
Proof. apply filter_sublist. Qed.

Lemma filterAgents_keeps (normalizeAddress : string -> string)
    (agents : list AgentSummary) (params : SearchParams) (r : AgentSummary) :
  In r (_filterAgents normalizeAddress agents params) ->
  In r agents /\ keeps normalizeAddress params r = true.
Proof. unfold _filterAgents. apply filter_In. Qed.

(** The items of a page are a subsequence of the filtered answer. *)
Lemma searchAgents_items (normalizeAddress : string -> string)
    (client : SubgraphClient) (params : option SearchParams) (pageSize : Z)
    (cursor : option string) (page : Page) :
  fst (run (searchAgents normalizeAddress (configured client) params pageSize cursor))
  = Return page ->
  exists agents,
    SubgraphClient.searchAgents client (default SearchParams.empty params)
                                (pageSize + 1) (decodeCursor cursor)
    = Return agents
    /\ items page
       `sublist_of` _filterAgents normalizeAddress agents
                                  (default SearchParams.empty params).
Proof.
  rewrite searchAgents_run. cbn [fst].
  destruct (SubgraphClient.searchAgents client _ _ _) as [agents|e];
    [|discriminate].
  cbn zeta. intros [= <-]. exists agents. split; [reflexivity|]. cbn [items].
  destruct (pageSize <? _); [apply slice0_sublist|reflexivity].
Qed.

(** C5, as the code has it: a call with a page size pageSize that is not
    negative and an integer offset off decoded from the cursor (both safe
    integers, as is off + pageSize) makes one request, for pageSize + 1
    records at off. When more than pageSize records pass the residual filter,
    the page holds the first pageSize of them and nextCursor is the decimal
    text of off + pageSize; otherwise the page holds them all and nextCursor
    is absent. *)
Theorem C5_searchAgents_pagination
    (normalizeAddress : string -> string) (client : SubgraphClient)
    (params : option SearchParams) (pageSize off : Z) (cursor : option string)
    (agents : list AgentSummary) :
  let searchParams := default SearchParams.empty params in
  let filtered := _filterAgents normalizeAddress agents searchParams in
  0 <= pageSize ->
  safeInteger pageSize ->
  decodeCursor cursor = Num off ->
  safeInteger off ->
  safeInteger (off + pageSize) ->
  SubgraphClient.searchAgents client searchParams (pageSize + 1) (Num off)
  = Return agents ->
  exists page,
    run (searchAgents normalizeAddress (configured client) params pageSize cursor)
    = (Return page, [SearchAgents searchParams (pageSize + 1) (Num off)])
    /\ (pageSize < Z.of_nat (length filtered) ->
        items page = take (Z.to_nat pageSize) filtered
        /\ Z.of_nat (length (items page)) = pageSize
        /\ exists c,
             nextCursor page = Some c /\ decimalText c (off + pageSize))
    /\ (Z.of_nat (length filtered) <= pageSize ->
        items page = filtered /\ nextCursor page = None).
Proof.
  intros searchParams filtered Hsize _ Hdecode _ _ Hfetch.
  rewrite searchAgents_run. fold searchParams. rewrite Hdecode, Hfetch.
  cbn zeta. fold filtered.
  eexists. split; [reflexivity|]. cbn [items nextCursor].
  destruct (Z.ltb_spec pageSize (Z.of_nat (length filtered))) as [Hmore|Hall].
  - split; [|lia]. intros _.
    rewrite length_slice0 by lia. rewrite slice0_take by lia.
    split; [reflexivity|]. split; [reflexivity|].
    eexists. split; [reflexivity|]. cbn [add]. apply String_decimalText.
  - split; [lia|]. auto.
Qed.

Lemma C5_searchAgents_pagination_witness :
  exists page,
    run (searchAgents lowercaseAddress
                      (configured (fixedClient None [alice; bob; carol] []))
                      None 2 (Some "40"))
    = (Return page, [SearchAgents SearchParams.empty 3 (Num 40)])
    /\ items page = [alice; bob]
    /\ exists c, nextCursor page = Some c /\ decimalText c 42.
Proof.
  destruct (C5_searchAgents_pagination lowercaseAddress
              (fixedClient None [alice; bob; carol] []) None 2 40 (Some "40")
              [alice; bob; carol])
    as (page & Hrun & Hmore & _);
    [lia|unfold safeInteger, MAX_SAFE_INTEGER; lia|reflexivity
     |unfold safeInteger, MAX_SAFE_INTEGER; lia
     |unfold safeInteger, MAX_SAFE_INTEGER; lia|reflexivity|].
  exists page. split; [exact Hrun|].
  destruct Hmore as (Hitems & _ & Hcursor); [vm_compute; reflexivity|].
  split; [exact Hitems|exact Hcursor].
Defined.

(** C5 as stated fails: with the page size -1 three records pass the filter,
    which exceeds the page size, yet the page holds two of them, not the
    first -1 (none), and its length is not the page size. *)
Lemma C5_counterexample :
  run (searchAgents lowercaseAddress
                    (configured (fixedClient None [alice; bob; carol] []))
                    None (-1) None)
  = (Return {| items := [alice; bob]; nextCursor := Some "-1" |},
     [SearchAgents SearchParams.empty 0 (Num 0)])
  /\ -1 < Z.of_nat (length (_filterAgents lowercaseAddress [alice; bob; carol]
                                          SearchParams.empty))
  /\ [alice; bob]
     <> take (Z.to_nat (-1))
             (_filterAgents lowercaseAddress [alice; bob; carol]
                            SearchParams.empty)
  /\ Z.of_nat (length [alice; bob]) <> -1.
Proof.
  split; [reflexivity|]. split; [cbn; lia|]. split; [discriminate|].
  cbn. lia.
Qed.

(** C9: the items of a page are a subsequence of the records the subgraph
    answered with: the same records in the same order, some removed. *)
Theorem C9_items_subsequence_of_source
    (normalizeAddress : string -> string) (client : SubgraphClient)
    (params : option SearchParams) (pageSize : Z) (cursor : option string)
    (agents : list AgentSummary) :
  SubgraphClient.searchAgents client (default SearchParams.empty params)
                              (pageSize + 1) (decodeCursor cursor)
  = Return agents ->
  exists page,
    fst (run (searchAgents normalizeAddress (configured client) params pageSize
                           cursor))
    = Return page
    /\ items page `sublist_of` agents.
Proof.
  intros Hfetch.
  pose proof (searchAgents_run normalizeAddress client params pageSize cursor)
    as Hrun.
  cbn zeta in Hrun. rewrite Hfetch in Hrun. rewrite Hrun. cbn [fst].
  eexists. split; [reflexivity|].
  destruct (searchAgents_items normalizeAddress client params pageSize cursor _
              (f_equal fst Hrun)) as (agents' & Hfetch' & Hsub).
  rewrite Hfetch in Hfetch'. injection Hfetch' as <-.
  etransitivity; [exact Hsub|apply filterAgents_sublist].
Qed.

Lemma C9_items_subsequence_of_source_witness :
  exists page,
    fst (run (searchAgents lowercaseAddress
                           (configured (fixedClient None [alice; bob; carol] []))
                           (Some (byEns "CAROL.eth")) 1 None))
    = Return page
    /\ items page `sublist_of` [alice; bob; carol].
Proof.
  apply (C9_items_subsequence_of_source lowercaseAddress
           (fixedClient None [alice; bob; carol] [])
           (Some (byEns "CAROL.eth")) 1 None).
  reflexivity.
Defined.

(** ** The residual filter *)

(** What a kept record tells about an address criterion: the record has no
    address of its own, or the two addresses agree once normalized. *)
Lemma rejects_address_false (normalizeAddress : string -> string)
    (wanted : string) (mine : option string) :
  wanted <> "" ->
  rejects_address normalizeAddress (Some wanted) mine = false ->
  match mine with
  | Some own => own = "" \/ normalizeAddress own = normalizeAddress wanted
  | None => True
  end.
Proof.
  intros Hwanted Hkept. destruct mine as [own|]; [|exact I].
  destruct wanted as [|w ws]; [congruence|].
  destruct own as [|o os]; [left; reflexivity|right].
  cbn in Hkept. apply negb_false_iff in Hkept.
  apply String.eqb_eq. exact Hkept.
Qed.

Lemma keeps_addresses (normalizeAddress : string -> string)
    (params : SearchParams) (agent : AgentSummary) :
  keeps normalizeAddress params agent = true ->
  rejects_address normalizeAddress (SearchParams.ens params)
                  (AgentSummary.ens agent) = false
  /\ rejects_address normalizeAddress (SearchParams.walletAddress params)
                     (AgentSummary.walletAddress agent) = false.
Proof.
  unfold keeps. intros Hkeeps.
  repeat match type of Hkeeps with
         | (if ?test then false else _) = true =>
             let Htest := fresh "Htest" in
             destruct test eqn:Htest; [discriminate Hkeeps|]
         end.
  split; reflexivity.
Qed.

(** The test of an address criterion rejects no record whose own address is
    absent or empty, whatever the criterion. *)
Lemma rejects_address_mine_blank (normalizeAddress : string -> string)
    (criterion mine : option string) :
  blank mine -> rejects_address normalizeAddress criterion mine = false.
Proof. intros [-> | ->]; destruct criterion as [[|c r]|]; reflexivity. Qed.

Lemma keeps_byEns_blank (normalizeAddress : string -> string)
    (wanted : string) (r : AgentSummary) :
  blank (AgentSummary.ens r) ->
  keeps normalizeAddress (byEns wanted) r = true.
Proof.
  intros Hblank. unfold keeps.
  cbn [byEns SearchParams.ens SearchParams.walletAddress].
  rewrite (rejects_address_mine_blank normalizeAddress (Some wanted) _ Hblank).
  reflexivity.
Qed.

Lemma keeps_byWallet_blank (normalizeAddress : string -> string)
    (wanted : string) (r : AgentSummary) :
  blank (AgentSummary.walletAddress r) ->
  keeps normalizeAddress (byWallet wanted) r = true.
Proof.
  intros Hblank. unfold keeps.
  cbn [byWallet SearchParams.ens SearchParams.walletAddress].
  rewrite (rejects_address_mine_blank normalizeAddress (Some wanted) _ Hblank).
  reflexivity.
Qed.

(** Every record of the answer that the callback keeps is on the page, when
    the answer has no more records than the page size. *)
Lemma searchAgents_returns_kept (normalizeAddress : string -> string)
    (client : SubgraphClient) (params : SearchParams) (pageSize : Z)
    (cursor : option string) (agents : list AgentSummary) (r : AgentSummary) :
  SubgraphClient.searchAgents client params (pageSize + 1) (decodeCursor cursor)
  = Return agents ->
  Z.of_nat (length agents) <= pageSize ->
  In r agents ->
  keeps normalizeAddress params r = true ->
  exists page,
    fst (run (searchAgents normalizeAddress (configured client) (Some params)
                           pageSize cursor))
    = Return page
    /\ In r (items page).
Proof.
  intros Hfetch Hfew Hin Hkeeps.
  rewrite searchAgents_run.
  change (default SearchParams.empty (Some params)) with params.
  rewrite Hfetch. cbn zeta. cbn [fst].
  eexists. split; [reflexivity|]. cbn [items].
  pose proof (sublist_length _ _
                (filterAgents_sublist normalizeAddress agents params)) as Hle.
  destruct (Z.ltb_spec pageSize
              (Z.of_nat (length (_filterAgents normalizeAddress agents params))));
    [lia|].
  unfold _filterAgents. apply filter_In. split; assumption.
Qed.

(** C3, as the code has it: when the ens (respectively walletAddress)
    criterion is present and not empty, every returned record either has no
    ens (respectively walletAddress) of its own, absent or empty, or has one
    equal to the criterion under address normalization. A record without the
    field passes the test, whatever the criterion: a search by ens
    (respectively walletAddress) alone returns every record of the answer
    whose ens (respectively walletAddress) is absent or empty, when the
    answer fits the page. *)
Theorem C3_address_criteria_on_returned_records
    (normalizeAddress : string -> string) (client : SubgraphClient)
    (pageSize : Z) (cursor : option string) :
  (forall params page r,
      fst (run (searchAgents normalizeAddress (configured client) params pageSize
                             cursor))
      = Return page ->
      In r (items page) ->
      (forall wanted,
          SearchParams.ens (default SearchParams.empty params) = Some wanted ->
          wanted <> "" ->
          match AgentSummary.ens r with
          | Some own => own = "" \/ normalizeAddress own = normalizeAddress wanted
          | None => True
          end)
      /\ (forall wanted,
            SearchParams.walletAddress (default SearchParams.empty params)
            = Some wanted ->
            wanted <> "" ->
            match AgentSummary.walletAddress r with
            | Some own =>
                own = "" \/ normalizeAddress own = normalizeAddress wanted
            | None => True
            end))
  /\ (forall criterion mine,
        blank mine -> rejects_address normalizeAddress criterion mine = false)
  /\ (forall wanted agents r,
        SubgraphClient.searchAgents client (byEns wanted) (pageSize + 1)
                                    (decodeCursor cursor)
        = Return agents ->
        Z.of_nat (length agents) <= pageSize ->
        In r agents ->
        blank (AgentSummary.ens r) ->
        exists page,
          fst (run (searchAgents normalizeAddress (configured client)
                                 (Some (byEns wanted)) pageSize cursor))
          = Return page
          /\ In r (items page))
  /\ (forall wanted agents r,
        SubgraphClient.searchAgents client (byWallet wanted) (pageSize + 1)
                                    (decodeCursor cursor)
        = Return agents ->
        Z.of_nat (length agents) <= pageSize ->
        In r agents ->
        blank (AgentSummary.walletAddress r) ->
        exists page,
          fst (run (searchAgents normalizeAddress (configured client)
                                 (Some (byWallet wanted)) pageSize cursor))
          = Return page
          /\ In r (items page)).
Proof.
  split; [|split; [|split]].
  - intros params page r Hrun Hin.
    destruct (searchAgents_items _ _ _ _ _ _ Hrun) as (agents & _ & Hsub).
    apply list_elem_of_In in Hin.
    pose proof (elem_of_sublist _ _ _ Hin Hsub) as Hfiltered.
    apply list_elem_of_In, filterAgents_keeps in Hfiltered.
    destruct Hfiltered as [_ Hkeeps].
    apply keeps_addresses in Hkeeps. destruct Hkeeps as [Hens Hwallet].
    split; intros wanted Hcriterion Hwanted.
    + rewrite Hcriterion in Hens. eapply rejects_address_false; eassumption.
    + rewrite Hcriterion in Hwallet. eapply rejects_address_false; eassumption.
  - apply rejects_address_mine_blank.
  - intros wanted agents r Hfetch Hfew Hin Hblank.
    apply (searchAgents_returns_kept _ _ _ _ _ agents); try assumption.
    apply keeps_byEns_blank, Hblank.
  - intros wanted agents r Hfetch Hfew Hin Hblank.
    apply (searchAgents_returns_kept _ _ _ _ _ agents); try assumption.
    apply keeps_byWallet_blank, Hblank.
Qed.

Lemma C3_address_criteria_on_returned_records_witness :
  match AgentSummary.ens alice with
  | Some own => own = "" \/ lowercaseAddress own = lowercaseAddress "alice.eth"
  | None => True
  end
  /\ exists page,
       fst (run (searchAgents lowercaseAddress
                   (configured (fixedClient None [alice; bob; carol] []))
                   (Some (byEns "alice.eth")) 50 None))
       = Return page
       /\ In bob (items page).
Proof.
  destruct (C3_address_criteria_on_returned_records lowercaseAddress
              (fixedClient None [alice; bob; carol] []) 50 None)
    as (Hreturned & _ & Habsent & _).
  split.
  - refine (proj1 (Hreturned (Some (byEns "alice.eth"))
                     {| items := [alice; bob]; nextCursor := None |} alice
                     _ _) "alice.eth" _ _).
    + reflexivity.
    + left. reflexivity.
    + reflexivity.
    + discriminate.
  - apply (Habsent "alice.eth" [alice; bob; carol] bob).
    + reflexivity.
    + cbn. lia.
    + right. left. reflexivity.
    + left. reflexivity.
Defined.

(** C3 as stated fails: searching by the ens "alice.eth" returns bob, whose
    ens is absent. normalizeAddress is not called on bob. *)
Lemma C3_counterexample :
  In bob (returned (run (searchAgents lowercaseAddress
                                      (configured (fixedClient None [bob] []))
                                      (Some (byEns "alice.eth")) 50 None)))
  /\ AgentSummary.ens bob = None
  /\ ~ (forall r,
          In r (returned (run (searchAgents lowercaseAddress
                                            (configured (fixedClient None [bob] []))
                                            (Some (byEns "alice.eth")) 50 None))) ->
          exists own,
            AgentSummary.ens r = Some own
            /\ lowercaseAddress own = lowercaseAddress "alice.eth").
Proof.
  split; [left; reflexivity|]. split; [reflexivity|].
  intros Hall. destruct (Hall bob) as (own & Hown & _); [left; reflexivity|].
  discriminate Hown.
Qed.

(** The same holds for every normalizeAddress: a record without an ens is
    kept by the ens test. *)
Lemma rejects_address_absent (normalizeAddress : string -> string)
    (criterion : option string) :
  rejects_address normalizeAddress criterion None = false.
Proof. destruct criterion as [[|c r]|]; reflexivity. Qed.

(** *** Blank string criteria *)

Lemma blank_not_truthy (o : option string) : blank o -> truthy o = false.
Proof. intros [-> | ->]; reflexivity. Qed.

Lemma rejects_name_blank (params : SearchParams) (agent : AgentSummary) :
  blank (SearchParams.name params) -> rejects_name params agent = false.
Proof. unfold rejects_name. intros [-> | ->]; reflexivity. Qed.

Lemma rejects_did_blank (params : SearchParams) (agent : AgentSummary) :
  blank (SearchParams.did params) -> rejects_did params agent = false.
Proof. unfold rejects_did. intros [-> | ->]; reflexivity. Qed.

Lemma rejects_address_blank (normalizeAddress : string -> string)
    (criterion mine : option string) :
  blank criterion -> rejects_address normalizeAddress criterion mine = false.
Proof. intros [-> | ->]; reflexivity. Qed.

Lemma rejects_name_alike (p q : SearchParams) (agent : AgentSummary) :
  same_or_blank (SearchParams.name p) (SearchParams.name q) ->
  rejects_name p agent = rejects_name q agent.
Proof.
  intros [Hsame | [Hp Hq]].
  - unfold rejects_name. rewrite Hsame. reflexivity.
  - rewrite !rejects_name_blank by assumption. reflexivity.
Qed.

Lemma rejects_did_alike (p q : SearchParams) (agent : AgentSummary) :
  same_or_blank (SearchParams.did p) (SearchParams.did q) ->
  rejects_did p agent = rejects_did q agent.
Proof.
  intros [Hsame | [Hp Hq]].
  - unfold rejects_did. rewrite Hsame. reflexivity.
  - rewrite !rejects_did_blank by assumption. reflexivity.
Qed.

Lemma rejects_address_alike (normalizeAddress : string -> string)
    (a b mine : option string) :
  same_or_blank a b ->
  rejects_address normalizeAddress a mine = rejects_address normalizeAddress b mine.
Proof.
  intros [-> | [Ha Hb]]; [reflexivity|].
  rewrite !rejects_address_blank by assumption. reflexivity.
Qed.

Lemma rejects_chain_alike (p q : SearchParams) (agent : AgentSummary) :
  SearchParams.chains p = SearchParams.chains q ->
  rejects_chain p agent = rejects_chain q agent.
Proof. unfold rejects_chain. intros ->. reflexivity. Qed.

Lemma keeps_alike (normalizeAddress : string -> string) (p q : SearchParams)
    (agent : AgentSummary) :
  alike_up_to_blank p q ->
  keeps normalizeAddress p agent = keeps normalizeAddress q agent.
Proof.
  intros (Hname & Hens & Hdid & Hwallet & Hmcp & Ha2a & Htrust & Hskills
          & Htools & Hprompts & Hresources & Hactive & Hx402 & Hchains).
  unfold keeps.
  rewrite (rejects_name_alike p q agent Hname).
  rewrite (rejects_did_alike p q agent Hdid).
  rewrite (rejects_address_alike normalizeAddress _ _ _ Hens).
  rewrite (rejects_address_alike normalizeAddress _ _ _ Hwallet).
  rewrite (rejects_chain_alike p q agent Hchains).
  rewrite Hmcp, Ha2a, Htrust, Hskills, Htools, Hprompts, Hresources, Hactive, Hx402.
  reflexivity.
Qed.

(** C10: a name, ens, did or walletAddress criterion that is the empty string
    constrains nothing. Its test rejects no record, as when the criterion is
    absent, and two criteria objects that differ only in such empty or absent
    fields filter every list of records to the same result. *)
Theorem C10_empty_string_criterion_is_no_constraint
    (normalizeAddress : string -> string) (p : SearchParams) :
  (forall agent,
      (blank (SearchParams.name p) -> rejects_name p agent = false)
      /\ (blank (SearchParams.ens p) ->
          rejects_address normalizeAddress (SearchParams.ens p)
                          (AgentSummary.ens agent) = false)
      /\ (blank (SearchParams.did p) -> rejects_did p agent = false)
      /\ (blank (SearchParams.walletAddress p) ->
          rejects_address normalizeAddress (SearchParams.walletAddress p)
                          (AgentSummary.walletAddress agent) = false))
  /\ (forall q agents,
        alike_up_to_blank p q ->
        _filterAgents normalizeAddress agents p
        = _filterAgents normalizeAddress agents q).
Proof.
  split.
  - intros agent.
    split; [apply rejects_name_blank|].
    split; [apply rejects_address_blank|].
    split; [apply rejects_did_blank|apply rejects_address_blank].
  - intros q agents Halike. unfold _filterAgents.
    apply filter_ext. intros agent. apply keeps_alike, Halike.
Qed.

Lemma C10_empty_string_criterion_is_no_constraint_witness :
  rejects_address lowercaseAddress (SearchParams.ens (byEns ""))
                  (AgentSummary.ens alice) = false
  /\ _filterAgents lowercaseAddress [alice; bob; carol] (byEns "")
     = _filterAgents lowercaseAddress [alice; bob; carol] SearchParams.empty.
Proof.
  destruct (C10_empty_string_criterion_is_no_constraint lowercaseAddress
              (byEns "")) as [Htests Hfilter].
  split.
  - destruct (Htests alice) as (_ & Hens & _). apply Hens. right. reflexivity.
  - apply Hfilter.
    unfold alike_up_to_blank, same_or_blank, blank. cbn.
    split; [left; reflexivity|].
    split; [right; split; [right|left]; reflexivity|].
    split; [left; reflexivity|].
    split; [left; reflexivity|].
    repeat split.
Defined.

(** ** searchAgentsByReputation *)

(** *** split *)

Lemma split_no_colon (s : string) : no_colon s = true -> split ":" s = [s].
Proof.
  induction s as [|c r IH]; [reflexivity|].
  cbn [no_colon split].
  destruct (Ascii.eqb c ":"); cbn [negb andb]; [discriminate|].
  intros Hr. rewrite (IH Hr). reflexivity.
Qed.

Lemma split_colon (l r : string) :
  no_colon l = true -> split ":" (l +:+ ":" +:+ r) = l :: split ":" r.
Proof.
  induction l as [|c l IH]; [reflexivity|].
  simpl.
  destruct (Ascii.eqb c ":"); cbn [negb andb]; [discriminate|].
  intros Hl. rewrite (IH Hl). reflexivity.
Qed.

(** *** The sort parameter *)

Lemma parseSort_first_only (entry : string) (more : list string) :
  parseSort (entry :: more) = parseSort [entry].
Proof. reflexivity. Qed.

Lemma parseSort_field_only (field : string) :
  no_colon field = true ->
  parseSort [field] = (or_else (Some field) "createdAt", "desc").
Proof.
  intros Hfield. unfold parseSort. rewrite (split_no_colon field Hfield).
  reflexivity.
Qed.

Lemma parseSort_field_direction (field direction : string) :
  no_colon field = true ->
  no_colon direction = true ->
  parseSort [field +:+ ":" +:+ direction]
  = (or_else (Some field) "createdAt", or_else (Some direction) "desc").
Proof.
  intros Hfield Hdirection. unfold parseSort.
  rewrite (split_colon field direction Hfield).
  rewrite (split_no_colon direction Hdirection). reflexivity.
Qed.

Lemma parseSort_field_direction_rest (field direction rest : string) :
  no_colon field = true ->
  no_colon direction = true ->
  parseSort [field +:+ ":" +:+ direction +:+ ":" +:+ rest]
  = (or_else (Some field) "createdAt", or_else (Some direction) "desc").
Proof.
  intros Hfield Hdirection. unfold parseSort.
  rewrite (split_colon field _ Hfield).
  rewrite (split_colon direction rest Hdirection). reflexivity.
Qed.

(** One call with a client configured: one request carrying the parsed sort,
    then every record is mapped to a summary; a failure of the request is
    wrapped. *)
Lemma searchAgentsByReputation_run (normalizeAddress : string -> string)
    (client : SubgraphClient)
    (agents tags reviewers capabilities skills tasks names : option (list string))
    (minAverageScore : option Score) (includeRevoked : bool)
    (first skip : Z) (sort : list string) :
  let query :=
    reputationQuery agents tags reviewers capabilities skills tasks names
                    minAverageScore includeRevoked first skip
                    (fst (parseSort sort)) (snd (parseSort sort)) in
  run (searchAgentsByReputation normalizeAddress (configured client)
         agents tags reviewers capabilities skills tasks names
         minAverageScore includeRevoked first skip sort)
  = (match SubgraphClient.searchAgentsByReputation client query with
     | Return agentsData =>
         Return {| items := List.map (toAgentSummary normalizeAddress) agentsData;
                   nextCursor :=
                     if Z.of_nat (length agentsData) =? first
                     then Some (String_ (Num (skip + Z.of_nat (length agentsData))))
                     else None |}
     | Throw error =>
         Throw (new_Error ("Failed to search agents by reputation: "
                           +:+ Error_toString error))
     end,
     [SearchAgentsByReputation query]).
Proof.
  intros query. subst query.
  unfold run, searchAgentsByReputation, configured. cbn [subgraphClient].
  destruct (parseSort sort) as [orderBy orderDirection]. cbn [fst snd].
  unfold try_catch, bind, await, ret, throw. cbn.
  destruct (SubgraphClient.searchAgentsByReputation client _) as [agentsData|error];
    [|reflexivity].
  rewrite length_map. reflexivity.
Qed.

(** C4, as the code has it: only the first entry of sort is read, and it is
    split on ':'. The text before the first ':' is orderBy, or createdAt when
    that text is empty or sort is empty. The text between the first ':' and
    the next one (or the end) is orderDirection as it stands, or desc when it
    is empty or there is no ':'; so orderDirection is asc or desc when that
    text is asc, desc or empty. Both are sent to the subgraph as parsed. *)
Theorem C4_sort_parsing :
  parseSort [] = ("createdAt", "desc")
  /\ (forall entry more, parseSort (entry :: more) = parseSort [entry])
  /\ (forall field,
        no_colon field = true ->
        parseSort [field] = (or_else (Some field) "createdAt", "desc"))
  /\ (forall field direction,
        no_colon field = true ->
        no_colon direction = true ->
        parseSort [field +:+ ":" +:+ direction]
        = (or_else (Some field) "createdAt", or_else (Some direction) "desc")
        /\ (forall rest,
              parseSort [field +:+ ":" +:+ direction +:+ ":" +:+ rest]
              = (or_else (Some field) "createdAt", or_else (Some direction) "desc"))
        /\ (direction = "" \/ direction = "asc" \/ direction = "desc" ->
            snd (parseSort [field +:+ ":" +:+ direction]) = "asc"
            \/ snd (parseSort [field +:+ ":" +:+ direction]) = "desc"))
  /\ (forall normalizeAddress client agents tags reviewers capabilities skills
             tasks names minAverageScore includeRevoked first skip sort,
        snd (run (searchAgentsByReputation normalizeAddress (configured client)
                    agents tags reviewers capabilities skills tasks names
                    minAverageScore includeRevoked first skip sort))
        = [SearchAgentsByReputation
             (reputationQuery agents tags reviewers capabilities skills tasks
                names minAverageScore includeRevoked first skip
                (fst (parseSort sort)) (snd (parseSort sort)))]).
Proof.
  split; [reflexivity|].
  split; [exact parseSort_first_only|].
  split; [exact parseSort_field_only|].
  split.
  - intros field direction Hfield Hdirection.
    split; [apply parseSort_field_direction; assumption|].
    split; [intros rest; apply parseSort_field_direction_rest; assumption|].
    rewrite (parseSort_field_direction field direction Hfield Hdirection).
    cbn [snd]. intros [-> | [-> | ->]]; cbn; auto.
  - intros. rewrite searchAgentsByReputation_run. reflexivity.
Qed.

Lemma C4_sort_parsing_witness :
  parseSort ["score" +:+ ":" +:+ "asc"] = ("score", "asc")
  /\ parseSort ["score"] = ("score", "desc").
Proof.
  destruct C4_sort_parsing as (_ & _ & Hfield & Hboth & _).
  split.
  - apply (Hboth "score" "asc"); reflexivity.
  - apply (Hfield "score"). reflexivity.
Defined.

(** C4 as stated fails: for sort = ["score:up"] the direction sent to the
    subgraph is "up", which is neither asc nor desc. *)
Lemma C4_counterexample :
  snd (run (searchAgentsByReputation lowercaseAddress
              (configured (fixedClient None [] []))
              None None None None None None None None false 50 0 ["score:up"]))
  = [SearchAgentsByReputation
       (reputationQuery None None None None None None None None false 50 0
                        "score" "up")]
  /\ ~ (snd (parseSort ["score:up"]) = "asc" \/ snd (parseSort ["score:up"]) = "desc").
Proof.
  split; [reflexivity|].
  intros [Hasc | Hdesc]; [discriminate Hasc|discriminate Hdesc].
Qed.



(** *** Normalizing a reputation record *)

Lemma or_else_nonempty (s d : string) : s <> "" -> or_else (Some s) d = s.
Proof. destruct s; [congruence|reflexivity]. Qed.

Lemma String_nonempty (z : Z) : String_ (Num z) <> "".
Proof.
  intros Hempty. pose proof (parseInt_String_ z) as Hread.
  rewrite Hempty in Hread. discriminate Hread.
Qed.

Lemma truthy_iff (o : option string) :
  truthy o = true <-> exists s, o = Some s /\ s <> "".
Proof.
  split.
  - destruct o as [[|c r]|]; try discriminate. intros _. eexists. split; [reflexivity|].
    discriminate.
  - intros (s & -> & Hs). destruct s; [congruence|reflexivity].
Qed.

Lemma truthy_field_iff {A : Type} (f : A -> option string) (o : option A) :
  truthy (field f o) = true
  <-> exists a s, o = Some a /\ f a = Some s /\ s <> "".
Proof.
  rewrite truthy_iff. split.
  - intros (s & Hfield & Hs). destruct o as [a|]; [|discriminate Hfield].
    exists a, s. auto.
  - intros (a & s & -> & Hfield & Hs). exists s. auto.
Qed.

(** C7, as the code has it: the summary's chainId is 0 when the record's
    chainId is absent or the empty string, and the integer itself when the
    chainId is a safe integer or the decimal text of one. The fallback 0 does
    not cover a text from which no integer can be parsed: when the text does
    not start with an integer the chainId is NaN, not 0. mcp (respectively
    a2a) is true exactly when the record has a registration file whose
    mcpEndpoint (respectively a2aEndpoint) is present and not empty. *)
Theorem C7_reputation_record_normalization
    (normalizeAddress : string -> string) (agent : ReputationAgent) :
  let summary := toAgentSummary normalizeAddress agent in
  let regFile := ReputationAgent.registrationFile agent in
  (ReputationAgent.chainId agent = None -> AgentSummary.chainId summary = Num 0)
  /\ (ReputationAgent.chainId agent = Some (Str "") ->
      AgentSummary.chainId summary = Num 0)
  /\ (forall z,
        safeInteger z ->
        ReputationAgent.chainId agent = Some (Number (Num z))
        \/ (exists s,
              ReputationAgent.chainId agent = Some (Str s) /\ decimalText s z) ->
        AgentSummary.chainId summary = Num z)
  /\ (forall s,
        ReputationAgent.chainId agent = Some (Str s) ->
        s <> "" ->
        startsWithDigit (unsigned (trimStart s)) = false ->
        AgentSummary.chainId summary = NaN)
  /\ (ReputationAgent.chainId agent = Some (Number NaN) ->
      AgentSummary.chainId summary = NaN)
  /\ (AgentSummary.mcp summary = true
      <-> exists file endpoint,
            regFile = Some file
            /\ RegistrationFile.mcpEndpoint file = Some endpoint
            /\ endpoint <> "")
  /\ (AgentSummary.a2a summary = true
      <-> exists file endpoint,
            regFile = Some file
            /\ RegistrationFile.a2aEndpoint file = Some endpoint
            /\ endpoint <> "").
Proof.
  intros summary regFile. subst summary regFile.
  cbn [toAgentSummary AgentSummary.chainId AgentSummary.mcp AgentSummary.a2a].
  split; [intros ->; reflexivity|].
  split; [intros ->; reflexivity|].
  split.
  { intros z _ [-> | (s & -> & Htext)]; cbn [option_map toString].
    - rewrite (or_else_nonempty _ _ (String_nonempty z)).
      apply parseInt_String_.
    - assert (Hs : s <> "") by (intros ->; destruct Htext as [_ [_ []]]).
      rewrite (or_else_nonempty _ _ Hs). apply parseInt_decimalText, Htext. }
  split.
  { intros s -> Hs Hmalformed. cbn [option_map toString].
    rewrite (or_else_nonempty _ _ Hs). apply parseInt_NaN_iff, Hmalformed. }
  split; [intros ->; reflexivity|].
  split; apply truthy_field_iff.
Qed.

Lemma C7_reputation_record_normalization_witness :
  AgentSummary.chainId
    (toAgentSummary lowercaseAddress (recordWithChain (Some (Str "8453")) None))
  = Num 8453
  /\ AgentSummary.chainId
       (toAgentSummary lowercaseAddress (recordWithChain None None))
     = Num 0
  /\ AgentSummary.chainId
       (toAgentSummary lowercaseAddress (recordWithChain (Some (Str "abc")) None))
     = NaN.
Proof.
  split; [|split].
  - destruct (C7_reputation_record_normalization lowercaseAddress
                (recordWithChain (Some (Str "8453")) None))
      as (_ & _ & Hinteger & _).
    apply Hinteger; [unfold safeInteger, MAX_SAFE_INTEGER; lia|].
    right. exists "8453". split; [reflexivity|].
    cbn. repeat split; lia.
  - destruct (C7_reputation_record_normalization lowercaseAddress
                (recordWithChain None None))
      as (Habsent & _).
    apply Habsent. reflexivity.
  - destruct (C7_reputation_record_normalization lowercaseAddress
                (recordWithChain (Some (Str "abc")) None))
      as (_ & _ & _ & Hmalformed & _).
    apply (Hmalformed "abc"); [reflexivity|discriminate|reflexivity].
Defined.

(** C7 as stated fails: for a record whose chainId is the text "abc" the
    parse fails and the summary's chainId is NaN, not 0. The record has no
    owner, operators or wallet, so normalizeAddress is not called. *)
Lemma C7_counterexample :
  parseInt "abc" = NaN
  /\ AgentSummary.chainId
       (toAgentSummary lowercaseAddress (recordWithChain (Some (Str "abc")) None))
     <> Num 0.
Proof. split; [reflexivity|discriminate]. Qed.

(** ** The size of a page *)

(** C8, as the code has it: for a page size that is not negative, searchAgents
    returns at most pageSize items. searchAgentsByReputation returns one item
    for each record of the subgraph's answer, so it returns at most first
    items when the answer has at most first records. *)
Theorem C8_page_length_bounds :
  (forall normalizeAddress client params pageSize cursor page,
      0 <= pageSize ->
      fst (run (searchAgents normalizeAddress (configured client) params pageSize
                             cursor))
      = Return page ->
      Z.of_nat (length (items page)) <= pageSize)
  /\ (forall normalizeAddress client agents tags reviewers capabilities skills
             tasks names minAverageScore includeRevoked first skip sort agentsData,
        SubgraphClient.searchAgentsByReputation client
          (reputationQuery agents tags reviewers capabilities skills tasks names
                           minAverageScore includeRevoked first skip
                           (fst (parseSort sort)) (snd (parseSort sort)))
        = Return agentsData ->
        exists page,
          fst (run (searchAgentsByReputation normalizeAddress (configured client)
                      agents tags reviewers capabilities skills tasks names
                      minAverageScore includeRevoked first skip sort))
          = Return page
          /\ length (items page) = length agentsData
          /\ (Z.of_nat (length agentsData) <= first ->
              Z.of_nat (length (items page)) <= first)).
Proof.
  split.
  - intros normalizeAddress client params pageSize cursor page Hsize.
    rewrite searchAgents_run. cbn [fst].
    destruct (SubgraphClient.searchAgents client _ _ _) as [agents|e];
      [|discriminate].
    cbn zeta. intros [= <-]. cbn [items].
    destruct (Z.ltb_spec pageSize
                (Z.of_nat (length (_filterAgents normalizeAddress agents
                                     (default SearchParams.empty params)))))
      as [Hmore|Hall].
    + rewrite length_slice0; lia.
    + exact Hall.
  - intros normalizeAddress client agents tags reviewers capabilities skills
           tasks names minAverageScore includeRevoked first skip sort agentsData
           Hfetch.
    rewrite searchAgentsByReputation_run. cbn zeta.
    rewrite Hfetch. cbn [fst]. eexists. split; [reflexivity|].
    cbn [items]. rewrite length_map. split; [reflexivity|tauto].
Qed.

Lemma C8_page_length_bounds_witness :
  Z.of_nat (length [alice; bob]) <= 2
  /\ exists page,
       fst (run (searchAgentsByReputation lowercaseAddress
                   (configured (fixedClient None []
                                  [recordWithChain (Some (Str "1")) None]))
                   None None None None None None None None false 50 0
                   ["createdAt:desc"]))
       = Return page
       /\ Z.of_nat (length (items page)) <= 50.
Proof.
  split.
  - apply (proj1 C8_page_length_bounds lowercaseAddress
             (fixedClient None [alice; bob; carol] []) None 2 None
             {| items := [alice; bob]; nextCursor := Some "2" |}).
    + lia.
    + reflexivity.
  - destruct (proj2 C8_page_length_bounds lowercaseAddress
                (fixedClient None [] [recordWithChain (Some (Str "1")) None])
                None None None None None None None None false 50 0
                ["createdAt:desc"] [recordWithChain (Some (Str "1")) None])
      as (page & Hrun & _ & Hbound); [reflexivity|].
    exists page. split; [exact Hrun|]. apply Hbound. cbn. lia.
Defined.

(** C8 as stated fails: with first = 1 and a subgraph that answers with two
    records, searchAgentsByReputation returns two items. The records have no
    owner, operators or wallet, so normalizeAddress is not called. *)
Lemma C8_counterexample :
  ~ (Z.of_nat
       (length (returned
                  (run (searchAgentsByReputation lowercaseAddress
                          (configured (fixedClient None []
                                         [recordWithChain (Some (Str "1")) None;
                                          recordWithChain (Some (Str "1")) None]))
                          None None None None None None None None false 1 0
                          ["createdAt:desc"]))))
     <= 1).
Proof. vm_compute. intros Hle. apply Hle. reflexivity. Qed.

(** A page size below zero is no size: [slice(0, -1)] drops the last record
    only. *)
Example searchAgents_negative_pageSize :
  returned (run (searchAgents lowercaseAddress
                   (configured (fixedClient None [alice; bob; carol] []))
                   None (-1) None))
  = [alice; bob].
Proof. reflexivity. Qed.

(** ** Outcomes and requests of the three operations *)

Lemma includes_unfold (s sub : string) :
  includes s sub
  = if String.prefix sub s then true
    else match s with
         | String _ r => includes r sub
         | EmptyString => false
         end.
Proof. destruct s; reflexivity. Qed.

Lemma prefix_append (s rest : string) : String.prefix s (s +:+ rest) = true.
Proof.
  induction s as [|c s IH]; [destruct rest; reflexivity|].
  simpl. destruct (Ascii.ascii_dec c c) as [_|Hc]; [exact IH|congruence].
Qed.

Lemma includes_append (before s after : string) :
  includes (before +:+ s +:+ after) s = true.
Proof.
  induction before as [|c before IH].
  - change ("" +:+ s +:+ after) with (s +:+ after).
    rewrite includes_unfold, prefix_append. reflexivity.
  - rewrite includes_unfold.
    destruct (String.prefix s (String c before +:+ s +:+ after)); [reflexivity|].
    exact IH.
Qed.

Lemma getAgent_run (client : SubgraphClient) (agentId : string) :
  run (getAgent (configured client) agentId)
  = (match SubgraphClient.getAgentById client agentId with
     | Return (Some agent) => Return agent
     | Return None => Throw (notFound agentId)
     | Throw e => Throw e
     end,
     [GetAgentById agentId]).
Proof.
  unfold run, getAgent, configured, bind, await, ret, throw, notFound. cbn.
  destruct (SubgraphClient.getAgentById client agentId) as [[agent|]|e];
    reflexivity.
Qed.

(** X1: getAgent returns an agent only when a subgraph client is configured
    and answers the lookup with that very agent, which is passed through
    unchanged. It throws either the not-found Error, whose message contains
    the requested id, or exactly what the client's lookup threw. *)
Theorem X1_getAgent_outcomes (this : AgentIndexer) (agentId : string) :
  (forall agent,
      fst (run (getAgent this agentId)) = Return agent
      <-> exists client,
            subgraphClient this = Some client
            /\ SubgraphClient.getAgentById client agentId = Return (Some agent))
  /\ (forall e,
        fst (run (getAgent this agentId)) = Throw e ->
        e = notFound agentId
        \/ exists client,
             subgraphClient this = Some client
             /\ SubgraphClient.getAgentById client agentId = Throw e)
  /\ includes (err_message (notFound agentId)) agentId = true.
Proof.
  destruct this as [[client|]].
  - change {| subgraphClient := Some client |} with (configured client).
    rewrite getAgent_run. cbn [fst subgraphClient configured].
    split; [|split].
    + intros agent. split.
      * destruct (SubgraphClient.getAgentById client agentId)
          as [[found|]|e] eqn:Hfetch;
          intros Hreturn; [|discriminate Hreturn..].
        exists client. split; congruence.
      * intros (client' & [= <-] & ->). reflexivity.
    + intros e.
      destruct (SubgraphClient.getAgentById client agentId)
        as [[found|]|e'] eqn:Hfetch;
        intros Hthrow; [discriminate Hthrow|left; congruence|right].
      exists client. split; [reflexivity|congruence].
    + apply (includes_append "Agent " agentId).
  - split; [|split].
    + intros agent. split; [discriminate|].
      intros (client & Hsome & _). discriminate Hsome.
    + intros e [= <-]. left. reflexivity.
    + apply (includes_append "Agent " agentId).
Qed.

Lemma X1_getAgent_outcomes_witness :
  fst (run (getAgent (configured (fixedClient (Some alice) [] [])) "1:1"))
  = Return alice
  /\ (Build_Error "TypeError" "fetch failed" = notFound "1:1"
      \/ exists client,
           subgraphClient
             (configured (failingClient (Build_Error "TypeError" "fetch failed")))
           = Some client
           /\ SubgraphClient.getAgentById client "1:1"
              = Throw (Build_Error "TypeError" "fetch failed")).
Proof.
  split.
  - apply (proj1 (X1_getAgent_outcomes
                    (configured (fixedClient (Some alice) [] [])) "1:1")).
    exists (fixedClient (Some alice) [] []). split; reflexivity.
  - apply (proj1 (proj2 (X1_getAgent_outcomes
                           (configured (failingClient
                                          (Build_Error "TypeError" "fetch failed")))
                           "1:1"))).
    reflexivity.
Defined.

(** X2: searchAgents throws in two cases only. With no subgraph client it
    throws the Error "Subgraph client required for agent search"; with a
    client it throws exactly what the client's search threw, unwrapped. *)
Theorem X2_searchAgents_failures
    (normalizeAddress : string -> string) (this : AgentIndexer)
    (params : option SearchParams) (pageSize : Z) (cursor : option string)
    (e : Error) :
  fst (run (searchAgents normalizeAddress this params pageSize cursor)) = Throw e
  <-> (subgraphClient this = None
       /\ e = new_Error "Subgraph client required for agent search")
      \/ exists client,
           subgraphClient this = Some client
           /\ SubgraphClient.searchAgents client
                (default SearchParams.empty params) (pageSize + 1)
                (decodeCursor cursor)
              = Throw e.
Proof.
  destruct this as [[client|]].
  - change {| subgraphClient := Some client |} with (configured client).
    rewrite searchAgents_run. cbn [fst configured subgraphClient]. split.
    + destruct (SubgraphClient.searchAgents client _ _ _) eqn:Hfetch;
        intros Hthrow; [discriminate Hthrow|].
      right. exists client. split; congruence.
    + intros [[Hnone _] | (client' & [= <-] & ->)];
        [discriminate Hnone|reflexivity].
  - cbn. split.
    + intros [= <-]. left. split; reflexivity.
    + intros [[_ ->] | (client & Hsome & _)];
        [reflexivity|discriminate Hsome].
Qed.

Lemma X2_searchAgents_failures_witness :
  fst (run (searchAgents lowercaseAddress
              (configured (failingClient (Build_Error "TypeError" "fetch failed")))
              None 50 None))
  = Throw (Build_Error "TypeError" "fetch failed").
Proof.
  apply (X2_searchAgents_failures lowercaseAddress
           (configured (failingClient (Build_Error "TypeError" "fetch failed")))
           None 50 None).
  right. exists (failingClient (Build_Error "TypeError" "fetch failed")).
  split; reflexivity.
Defined.

Lemma includes_prefix (s sub : string) :
  String.prefix sub s = true -> includes s sub = true.
Proof. intros Hprefix. rewrite includes_unfold, Hprefix. reflexivity. Qed.

Lemma includes_skip (before s sub : string) :
  includes s sub = true -> includes (before +:+ s) sub = true.
Proof.
  intros Hin. induction before as [|c before IH]; [exact Hin|].
  rewrite includes_unfold.
  destruct (String.prefix sub (String c before +:+ s)); [reflexivity|exact IH].
Qed.

Lemma prefix_refl (s : string) : String.prefix s s = true.
Proof.
  induction s as [|c s IH]; [reflexivity|].
  simpl. destruct (Ascii.ascii_dec c c); [exact IH|congruence].
Qed.

(** The text of a thrown Error shows its message. *)
Lemma Error_toString_includes (e : Error) :
  includes (Error_toString e) (err_message e) = true.
Proof.
  destruct e as [n m]. unfold Error_toString. cbn [err_name err_message].
  destruct n as [|c n].
  - apply includes_prefix, prefix_refl.
  - destruct m as [|d m]; [reflexivity|].
    apply includes_skip, includes_skip, includes_prefix, prefix_refl.
Qed.

(** X3: searchAgentsByReputation throws in two cases only. With no subgraph
    client it throws the Error "Subgraph client required for reputation
    search", unwrapped. With a client, whatever the client's query throws is
    caught and replaced by a new Error whose message is "Failed to search
    agents by reputation: " followed by the text of the caught value, so the
    message of the cause can still be read in it. *)
Theorem X3_reputation_failures
    (normalizeAddress : string -> string) (this : AgentIndexer)
    (agents tags reviewers capabilities skills tasks names : option (list string))
    (minAverageScore : option Score) (includeRevoked : bool)
    (first skip : Z) (sort : list string) (e : Error) :
  let query :=
    reputationQuery agents tags reviewers capabilities skills tasks names
                    minAverageScore includeRevoked first skip
                    (fst (parseSort sort)) (snd (parseSort sort)) in
  fst (run (searchAgentsByReputation normalizeAddress this
              agents tags reviewers capabilities skills tasks names
              minAverageScore includeRevoked first skip sort))
  = Throw e
  <-> (subgraphClient this = None
       /\ e = new_Error "Subgraph client required for reputation search")
      \/ exists client cause,
           subgraphClient this = Some client
           /\ SubgraphClient.searchAgentsByReputation client query = Throw cause
           /\ e = new_Error (reputationFailure +:+ Error_toString cause)
           /\ String.prefix reputationFailure (err_message e) = true
           /\ includes (err_message e) (err_message cause) = true.
Proof.
  intros query. destruct this as [[client|]].
  - change {| subgraphClient := Some client |} with (configured client).
    rewrite searchAgentsByReputation_run. fold query.
    cbn [fst configured subgraphClient]. split.
    + destruct (SubgraphClient.searchAgentsByReputation client query)
        as [agentsData|cause] eqn:Hfetch; intros Hthrow; [discriminate Hthrow|].
      injection Hthrow as <-. right. exists client, cause.
      split; [reflexivity|]. split; [exact Hfetch|]. split; [reflexivity|].
      cbn [err_message new_Error]. split.
      * apply prefix_append.
      * apply includes_skip, Error_toString_includes.
    + intros [[Hnone _] | (client' & cause & [= <-] & -> & -> & _)];
        [discriminate Hnone|reflexivity].
  - cbn. split.
    + intros [= <-]. left. split; reflexivity.
    + intros [[_ ->] | (client & cause & Hsome & _)];
        [reflexivity|discriminate Hsome].
Qed.

Lemma X3_reputation_failures_witness :
  fst (run (searchAgentsByReputation lowercaseAddress
              (configured (failingClient (Build_Error "TypeError" "fetch failed")))
              None None None None None None None None false 50 0
              ["createdAt:desc"]))
  = Throw (new_Error
             "Failed to search agents by reputation: TypeError: fetch failed").
Proof.
  apply (X3_reputation_failures lowercaseAddress
           (configured (failingClient (Build_Error "TypeError" "fetch failed")))
           None None None None None None None None false 50 0
           ["createdAt:desc"]).
  right.
  exists (failingClient (Build_Error "TypeError" "fetch failed")),
         (Build_Error "TypeError" "fetch failed").
  repeat split.
Defined.

(** X4: whatever the outcome, each operation makes exactly one request to the
    subgraph when a client is configured, with the arguments it was given,
    and none when no client is configured. *)
Theorem X4_one_request_per_operation
    (normalizeAddress : string -> string) (this : AgentIndexer) :
  (forall agentId,
      snd (run (getAgent this agentId))
      = match subgraphClient this with
        | Some _ => [GetAgentById agentId]
        | None => []
        end)
  /\ (forall params pageSize cursor,
        snd (run (searchAgents normalizeAddress this params pageSize cursor))
        = match subgraphClient this with
          | Some _ =>
              [SearchAgents (default SearchParams.empty params) (pageSize + 1)
                            (decodeCursor cursor)]
          | None => []
          end)
  /\ (forall agents tags reviewers capabilities skills tasks names
             minAverageScore includeRevoked first skip sort,
        snd (run (searchAgentsByReputation normalizeAddress this
                    agents tags reviewers capabilities skills tasks names
                    minAverageScore includeRevoked first skip sort))
        = match subgraphClient this with
          | Some _ =>
              [SearchAgentsByReputation
                 (reputationQuery agents tags reviewers capabilities skills tasks
                    names minAverageScore includeRevoked first skip
                    (fst (parseSort sort)) (snd (parseSort sort)))]
          | None => []
          end).
Proof.
  destruct this as [[client|]].
  - change {| subgraphClient := Some client |} with (configured client).
    split; [|split]; intros.
    + rewrite getAgent_run. reflexivity.
    + rewrite searchAgents_run. reflexivity.
    + rewrite searchAgentsByReputation_run. reflexivity.
  - split; [|split]; intros; reflexivity.
Qed.

(** ** What the residual filter guarantees of a returned record *)

Lemma keeps_tests (normalizeAddress : string -> string)
    (params : SearchParams) (agent : AgentSummary) :
  keeps normalizeAddress params agent = true
  <-> rejects_name params agent = false
      /\ rejects_flag (SearchParams.mcp params) (AgentSummary.mcp agent) = false
      /\ rejects_flag (SearchParams.a2a params) (AgentSummary.a2a agent) = false
      /\ rejects_address normalizeAddress (SearchParams.ens params)
                         (AgentSummary.ens agent) = false
      /\ rejects_did params agent = false
      /\ rejects_address normalizeAddress (SearchParams.walletAddress params)
                         (AgentSummary.walletAddress agent) = false
      /\ rejects_list (SearchParams.supportedTrust params)
                      (AgentSummary.supportedTrusts agent) = false
      /\ rejects_list (SearchParams.a2aSkills params)
                      (AgentSummary.a2aSkills agent) = false
      /\ rejects_list (SearchParams.mcpTools params)
                      (AgentSummary.mcpTools agent) = false
      /\ rejects_list (SearchParams.mcpPrompts params)
                      (AgentSummary.mcpPrompts agent) = false
      /\ rejects_list (SearchParams.mcpResources params)
                      (AgentSummary.mcpResources agent) = false
      /\ rejects_flag (SearchParams.active params) (AgentSummary.active agent) = false
      /\ rejects_flag (SearchParams.x402support params)
                      (AgentSummary.x402support agent) = false
      /\ rejects_chain params agent = false.
Proof.
  unfold keeps. split.
  - intros Hkeeps.
    repeat match type of Hkeeps with
           | (if ?test then false else _) = true =>
               destruct test; [discriminate Hkeeps|]
           end.
    repeat split.
  - intros (-> & -> & -> & -> & -> & -> & -> & -> & -> & -> & -> & -> & -> & ->).
    reflexivity.
Qed.

(** Every item of a page passed the callback of the filter. *)
Lemma searchAgents_items_kept (normalizeAddress : string -> string)
    (client : SubgraphClient) (params : option SearchParams) (pageSize : Z)
    (cursor : option string) (page : Page) (r : AgentSummary) :
  fst (run (searchAgents normalizeAddress (configured client) params pageSize cursor))
  = Return page ->
  In r (items page) ->
  keeps normalizeAddress (default SearchParams.empty params) r = true.
Proof.
  intros Hrun Hin.
  destruct (searchAgents_items _ _ _ _ _ _ Hrun) as (agents & _ & Hsub).
  apply list_elem_of_In in Hin.
  pose proof (elem_of_sublist _ _ _ Hin Hsub) as Hfiltered.
  apply list_elem_of_In, filterAgents_keeps in Hfiltered.
  exact (proj2 Hfiltered).
Qed.

Lemma rejects_flag_false (wanted mine : bool) :
  rejects_flag (Some wanted) mine = false -> mine = wanted.
Proof. destruct wanted, mine; cbn; congruence. Qed.

Lemma number_eqb_eq (a b : number) : number_eqb a b = true <-> a = b.
Proof.
  destruct a as [|x], b as [|y]; cbn; split; try congruence.
  - intros Heq. apply Z.eqb_eq in Heq. congruence.
  - intros [= ->]. apply Z.eqb_refl.
Qed.

Lemma includes_str_In (l : list string) (x : string) :
  includes_str l x = true <-> In x l.
Proof.
  unfold includes_str. rewrite existsb_exists. split.
  - intros (y & Hin & Heq). apply String.eqb_eq in Heq. congruence.
  - intros Hin. exists x. split; [exact Hin|apply String.eqb_refl].
Qed.

Lemma includes_num_In (l : list number) (x : number) :
  includes_num l x = true <-> In x l.
Proof.
  unfold includes_num. rewrite existsb_exists. split.
  - intros (y & Hin & Heq). apply number_eqb_eq in Heq. congruence.
  - intros Hin. exists x. split; [exact Hin|]. apply number_eqb_eq. reflexivity.
Qed.

Lemma rejects_list_false (wanted : list string) (mine : option (list string)) :
  wanted <> [] ->
  rejects_list (Some wanted) mine = false ->
  exists x, In x wanted /\ In x (default [] mine).
Proof.
  intros Hwanted. destruct wanted as [|w ws]; [congruence|].
  change (rejects_list (Some (w :: ws)) mine)
    with (negb (some_included (w :: ws) (default [] mine))).
  generalize (w :: ws). clear w ws Hwanted. intros wanted Hkept.
  apply negb_false_iff in Hkept.
  unfold some_included in Hkept. apply existsb_exists in Hkept.
  destruct Hkept as (x & Hin & Hmine). exists x. split; [exact Hin|].
  apply includes_str_In. exact Hmine.
Qed.

(** X5: a record returned by searchAgents meets every scalar criterion that
    is set. Its mcp, a2a, active and x402support flags equal the criterion's;
    for a did criterion that is not empty its did is present and equal; for a
    name criterion that is not empty its name is present and contains the
    criterion, both lower-cased. A record without a name or did does not
    pass those tests. *)
Theorem X5_scalar_criteria_on_returned_records
    (normalizeAddress : string -> string) (client : SubgraphClient)
    (params : option SearchParams) (pageSize : Z) (cursor : option string)
    (page : Page) (r : AgentSummary) :
  let searchParams := default SearchParams.empty params in
  fst (run (searchAgents normalizeAddress (configured client) params pageSize cursor))
  = Return page ->
  In r (items page) ->
  (forall b, SearchParams.mcp searchParams = Some b -> AgentSummary.mcp r = b)
  /\ (forall b, SearchParams.a2a searchParams = Some b -> AgentSummary.a2a r = b)
  /\ (forall b, SearchParams.active searchParams = Some b ->
                AgentSummary.active r = b)
  /\ (forall b, SearchParams.x402support searchParams = Some b ->
                AgentSummary.x402support r = b)
  /\ (forall did,
        SearchParams.did searchParams = Some did -> did <> "" ->
        AgentSummary.did r = Some did)
  /\ (forall name,
        SearchParams.name searchParams = Some name -> name <> "" ->
        exists own,
          AgentSummary.name r = Some own
          /\ includes (toLowerCase own) (toLowerCase name) = true).
Proof.
  intros searchParams Hrun Hin.
  pose proof (searchAgents_items_kept _ _ _ _ _ _ _ Hrun Hin) as Hkeeps.
  fold searchParams in Hkeeps. apply keeps_tests in Hkeeps.
  destruct Hkeeps as (Hname & Hmcp & Ha2a & _ & Hdid & _ & _ & _ & _ & _ & _
                      & Hactive & Hx402 & _).
  split; [intros b Hb; rewrite Hb in Hmcp; apply rejects_flag_false, Hmcp|].
  split; [intros b Hb; rewrite Hb in Ha2a; apply rejects_flag_false, Ha2a|].
  split; [intros b Hb; rewrite Hb in Hactive; apply rejects_flag_false, Hactive|].
  split; [intros b Hb; rewrite Hb in Hx402; apply rejects_flag_false, Hx402|].
  split.
  - intros did Hcriterion Hdid'. unfold rejects_did in Hdid.
    rewrite Hcriterion in Hdid. destruct did as [|c d]; [congruence|].
    apply negb_false_iff in Hdid.
    destruct (AgentSummary.did r) as [own|]; [|discriminate Hdid].
    apply String.eqb_eq in Hdid. congruence.
  - intros name Hcriterion Hname'. unfold rejects_name in Hname.
    rewrite Hcriterion in Hname. destruct name as [|c n]; [congruence|].
    apply negb_false_iff in Hname.
    destruct (AgentSummary.name r) as [own|]; [|discriminate Hname].
    exists own. split; [reflexivity|exact Hname].
Qed.

Lemma X5_scalar_criteria_on_returned_records_witness :
  AgentSummary.mcp alice = true
  /\ exists own,
       AgentSummary.name carol = Some own
       /\ includes (toLowerCase own) (toLowerCase "1:3") = true.
Proof.
  split.
  - refine (proj1 (X5_scalar_criteria_on_returned_records lowercaseAddress
                     (fixedClient None [alice; bob; carol] [])
                     (Some (byFlags (Some true) None None)) 2 None
                     {| items := [alice; bob]; nextCursor := Some "2" |} alice
                     _ _) true _).
    + reflexivity.
    + left. reflexivity.
    + reflexivity.
  - destruct (X5_scalar_criteria_on_returned_records lowercaseAddress
                (fixedClient None [alice; bob; carol] [])
                (Some (byName "1:3")) 2 None
                {| items := [carol]; nextCursor := None |} carol)
      as (_ & _ & _ & _ & _ & Hname).
    + reflexivity.
    + left. reflexivity.
    + apply (Hname "1:3"); [reflexivity|discriminate].
Defined.

(** X6: a record returned by searchAgents meets every list criterion that is
    set and not empty: it shares at least one element with the
    supportedTrust, a2aSkills, mcpTools, mcpPrompts and mcpResources
    criterion (a record without the list shares none and is dropped), and its
    chainId is one of the chains criterion. *)
Theorem X6_list_criteria_on_returned_records
    (normalizeAddress : string -> string) (client : SubgraphClient)
    (params : option SearchParams) (pageSize : Z) (cursor : option string)
    (page : Page) (r : AgentSummary) :
  let searchParams := default SearchParams.empty params in
  fst (run (searchAgents normalizeAddress (configured client) params pageSize cursor))
  = Return page ->
  In r (items page) ->
  (forall wanted,
      SearchParams.supportedTrust searchParams = Some wanted -> wanted <> [] ->
      exists x, In x wanted /\ In x (default [] (AgentSummary.supportedTrusts r)))
  /\ (forall wanted,
        SearchParams.a2aSkills searchParams = Some wanted -> wanted <> [] ->
        exists x, In x wanted /\ In x (default [] (AgentSummary.a2aSkills r)))
  /\ (forall wanted,
        SearchParams.mcpTools searchParams = Some wanted -> wanted <> [] ->
        exists x, In x wanted /\ In x (default [] (AgentSummary.mcpTools r)))
  /\ (forall wanted,
        SearchParams.mcpPrompts searchParams = Some wanted -> wanted <> [] ->
        exists x, In x wanted /\ In x (default [] (AgentSummary.mcpPrompts r)))
  /\ (forall wanted,
        SearchParams.mcpResources searchParams = Some wanted -> wanted <> [] ->
        exists x, In x wanted /\ In x (default [] (AgentSummary.mcpResources r)))
  /\ (forall chains,
        SearchParams.chains searchParams = Some chains -> chains <> [] ->
        In (AgentSummary.chainId r) chains).
Proof.
  intros searchParams Hrun Hin.
  pose proof (searchAgents_items_kept _ _ _ _ _ _ _ Hrun Hin) as Hkeeps.
  fold searchParams in Hkeeps. apply keeps_tests in Hkeeps.
  destruct Hkeeps as (_ & _ & _ & _ & _ & _ & Htrust & Hskills & Htools
                      & Hprompts & Hresources & _ & _ & Hchains).
  split; [intros wanted Hw Hne; rewrite Hw in Htrust;
          exact (rejects_list_false _ _ Hne Htrust)|].
  split; [intros wanted Hw Hne; rewrite Hw in Hskills;
          exact (rejects_list_false _ _ Hne Hskills)|].
  split; [intros wanted Hw Hne; rewrite Hw in Htools;
          exact (rejects_list_false _ _ Hne Htools)|].
  split; [intros wanted Hw Hne; rewrite Hw in Hprompts;
          exact (rejects_list_false _ _ Hne Hprompts)|].
  split; [intros wanted Hw Hne; rewrite Hw in Hresources;
          exact (rejects_list_false _ _ Hne Hresources)|].
  intros chains Hcriterion Hne. unfold rejects_chain in Hchains.
  rewrite Hcriterion in Hchains. destruct chains as [|c cs]; [congruence|].
  apply negb_false_iff in Hchains. apply includes_num_In. exact Hchains.
Qed.

Lemma X6_list_criteria_on_returned_records_witness :
  In (AgentSummary.chainId bob) [Num 8453; Num 1].
Proof.
  refine (proj2 (proj2 (proj2 (proj2 (proj2
            (X6_list_criteria_on_returned_records lowercaseAddress
               (fixedClient None [alice; bob; carol] [])
               (Some (byFlags None None (Some [Num 8453; Num 1]))) 2 None
               {| items := [alice; bob]; nextCursor := Some "2" |} bob
               _ _))))) [Num 8453; Num 1] _ _).
  - reflexivity.
  - right. left. reflexivity.
  - reflexivity.
  - discriminate.
Defined.

(** ** The residual filter as a function of the criteria *)

Lemma filter_all {A : Type} (f : A -> bool) (l : list A) :
  (forall x, In x l -> f x = true) -> List.filter f l = l.
Proof.
  induction l as [|x l IH]; intros Hall; [reflexivity|].
  cbn. rewrite (Hall x (or_introl eq_refl)). f_equal.
  apply IH. intros y Hy. apply Hall. right. exact Hy.
Qed.

Lemma filter_filter {A : Type} (f g : A -> bool) (l : list A) :
  List.filter f (List.filter g l) = List.filter (fun x => g x && f x) l.
Proof.
  induction l as [|x l IH]; [reflexivity|].
  cbn. destruct (g x); cbn; [destruct (f x)|]; rewrite IH; reflexivity.
Qed.

Lemma keeps_empty (normalizeAddress : string -> string) (agent : AgentSummary) :
  keeps normalizeAddress SearchParams.empty agent = true.
Proof. reflexivity. Qed.

(** X7: filtering twice by the same criteria is filtering once, and filtering
    by two criteria objects gives the same list in either order. *)
Theorem X7_filterAgents_idempotent_and_commuting
    (normalizeAddress : string -> string) (agents : list AgentSummary)
    (p q : SearchParams) :
  _filterAgents normalizeAddress (_filterAgents normalizeAddress agents p) p
  = _filterAgents normalizeAddress agents p
  /\ _filterAgents normalizeAddress (_filterAgents normalizeAddress agents p) q
     = _filterAgents normalizeAddress (_filterAgents normalizeAddress agents q) p.
Proof.
  unfold _filterAgents. split.
  - apply filter_all. intros r Hr. apply filter_In in Hr. exact (proj2 Hr).
  - rewrite !filter_filter. apply filter_ext. intros r. apply andb_comm.
Qed.

(** X8: with no criteria (params absent or the empty object) nothing is
    filtered out: for a page size that is not negative, the page holds the
    first pageSize records of the subgraph's answer, as they came. *)
Theorem X8_no_criteria_returns_the_answer
    (normalizeAddress : string -> string) (client : SubgraphClient)
    (params : option SearchParams) (pageSize : Z) (cursor : option string)
    (agents : list AgentSummary) :
  params = None \/ params = Some SearchParams.empty ->
  0 <= pageSize ->
  SubgraphClient.searchAgents client SearchParams.empty (pageSize + 1)
                              (decodeCursor cursor)
  = Return agents ->
  _filterAgents normalizeAddress agents SearchParams.empty = agents
  /\ exists page,
       fst (run (searchAgents normalizeAddress (configured client) params pageSize
                              cursor))
       = Return page
       /\ items page = take (Z.to_nat pageSize) agents.
Proof.
  intros Hparams Hsize Hfetch.
  assert (Hall : _filterAgents normalizeAddress agents SearchParams.empty = agents).
  { apply filter_all. intros r _. apply keeps_empty. }
  split; [exact Hall|].
  rewrite searchAgents_run.
  assert (Hdefault : default SearchParams.empty params = SearchParams.empty)
    by (destruct Hparams as [-> | ->]; reflexivity).
  rewrite Hdefault, Hfetch. cbn zeta. rewrite Hall. cbn [fst].
  eexists. split; [reflexivity|]. cbn [items].
  destruct (Z.ltb_spec pageSize (Z.of_nat (length agents))) as [Hmore|Hfew].
  - apply slice0_take. lia.
  - rewrite take_ge by lia. reflexivity.
Qed.

Lemma X8_no_criteria_returns_the_answer_witness :
  exists page,
    fst (run (searchAgents lowercaseAddress
                (configured (fixedClient None [alice; bob; carol] []))
                (Some SearchParams.empty) 2 None))
    = Return page
    /\ items page = take 2 [alice; bob; carol].
Proof.
  apply (X8_no_criteria_returns_the_answer lowercaseAddress
           (fixedClient None [alice; bob; carol] [])
           (Some SearchParams.empty) 2 None [alice; bob; carol]).
  - right. reflexivity.
  - lia.
  - reflexivity.
Defined.

Lemma rejects_list_vacant (criterion mine : option (list string)) :
  vacant criterion -> rejects_list criterion mine = false.
Proof. intros [-> | ->]; reflexivity. Qed.

Lemma rejects_list_alike (a b mine : option (list string)) :
  same_or_vacant a b -> rejects_list a mine = rejects_list b mine.
Proof.
  intros [-> | [Ha Hb]]; [reflexivity|].
  rewrite !rejects_list_vacant by assumption. reflexivity.
Qed.

Lemma rejects_chain_vacant (params : SearchParams) (agent : AgentSummary) :
  vacant (SearchParams.chains params) -> rejects_chain params agent = false.
Proof. unfold rejects_chain. intros [-> | ->]; reflexivity. Qed.

Lemma rejects_chain_alike_vacant (p q : SearchParams) (agent : AgentSummary) :
  same_or_vacant (SearchParams.chains p) (SearchParams.chains q) ->
  rejects_chain p agent = rejects_chain q agent.
Proof.
  intros [Hsame | [Hp Hq]].
  - unfold rejects_chain. rewrite Hsame. reflexivity.
  - rewrite !rejects_chain_vacant by assumption. reflexivity.
Qed.

Lemma rejects_name_same (p q : SearchParams) (agent : AgentSummary) :
  SearchParams.name p = SearchParams.name q ->
  rejects_name p agent = rejects_name q agent.
Proof. unfold rejects_name. intros ->. reflexivity. Qed.

Lemma rejects_did_same (p q : SearchParams) (agent : AgentSummary) :
  SearchParams.did p = SearchParams.did q ->
  rejects_did p agent = rejects_did q agent.
Proof. unfold rejects_did. intros ->. reflexivity. Qed.

Lemma keeps_alike_vacant (normalizeAddress : string -> string)
    (p q : SearchParams) (agent : AgentSummary) :
  alike_up_to_vacant p q ->
  keeps normalizeAddress p agent = keeps normalizeAddress q agent.
Proof.
  intros (Hname & Hmcp & Ha2a & Hens & Hdid & Hwallet & Htrust & Hskills
          & Htools & Hprompts & Hresources & Hactive & Hx402 & Hchains).
  unfold keeps.
  rewrite (rejects_name_same p q agent Hname).
  rewrite (rejects_did_same p q agent Hdid).
  rewrite (rejects_list_alike _ _ _ Htrust), (rejects_list_alike _ _ _ Hskills).
  rewrite (rejects_list_alike _ _ _ Htools), (rejects_list_alike _ _ _ Hprompts).
  rewrite (rejects_list_alike _ _ _ Hresources).
  rewrite (rejects_chain_alike_vacant p q agent Hchains).
  rewrite Hmcp, Ha2a, Hens, Hwallet, Hactive, Hx402.
  reflexivity.
Qed.

(** X9: a supportedTrust, a2aSkills, mcpTools, mcpPrompts, mcpResources or
    chains criterion that is the empty array constrains nothing. Its test
    rejects no record, as when the criterion is absent, and two criteria
    objects that differ only in such empty or absent lists filter every list
    of records to the same result. *)
Theorem X9_empty_array_criterion_is_no_constraint
    (normalizeAddress : string -> string) (p : SearchParams) :
  (forall criterion mine, vacant criterion -> rejects_list criterion mine = false)
  /\ (forall agent,
        vacant (SearchParams.chains p) -> rejects_chain p agent = false)
  /\ (forall q agents,
        alike_up_to_vacant p q ->
        _filterAgents normalizeAddress agents p
        = _filterAgents normalizeAddress agents q).
Proof.
  split; [exact rejects_list_vacant|].
  split; [intros agent; apply rejects_chain_vacant|].
  intros q agents Halike. unfold _filterAgents.
  apply filter_ext. intros agent. apply keeps_alike_vacant, Halike.
Qed.

Lemma X9_empty_array_criterion_is_no_constraint_witness :
  rejects_chain (byFlags None (Some []) (Some [])) alice = false
  /\ _filterAgents lowercaseAddress [alice; bob; carol]
                   (byFlags None (Some []) (Some []))
     = _filterAgents lowercaseAddress [alice; bob; carol] SearchParams.empty.
Proof.
  destruct (X9_empty_array_criterion_is_no_constraint lowercaseAddress
              (byFlags None (Some []) (Some []))) as (_ & Hchain & Hfilter).
  split.
  - apply Hchain. right. reflexivity.
  - apply Hfilter.
    unfold alike_up_to_vacant, same_or_vacant, vacant. cbn.
    repeat (split; [first [reflexivity | left; reflexivity
                          | right; split; [right|left]; reflexivity]|]).
    right. split; [right|left]; reflexivity.
Defined.

(** *** The name test and letter case *)

Lemma toLowerCaseUnit_idempotent (c : ascii) :
  toLowerCaseUnit (toLowerCaseUnit c) = toLowerCaseUnit c.
Proof. destruct c as [[] [] [] [] [] [] [] []]; reflexivity. Qed.

Lemma toLowerCase_idempotent (s : string) :
  toLowerCase (toLowerCase s) = toLowerCase s.
Proof.
  induction s as [|c s IH]; [reflexivity|].
  cbn [toLowerCase]. rewrite toLowerCaseUnit_idempotent, IH. reflexivity.
Qed.

(** X10: the name test ignores letter case on both sides: lower-casing the
    name criterion, or the name of the record, changes nothing in which
    records the test rejects. *)
Theorem X10_name_test_ignores_case
    (p q : SearchParams) (agent agent' : AgentSummary) :
  (SearchParams.name q = option_map toLowerCase (SearchParams.name p) ->
   rejects_name q agent = rejects_name p agent)
  /\ (AgentSummary.name agent' = option_map toLowerCase (AgentSummary.name agent) ->
      rejects_name p agent' = rejects_name p agent).
Proof.
  unfold rejects_name. split.
  - intros ->. destruct (SearchParams.name p) as [[|c n]|]; try reflexivity.
    cbn [option_map toLowerCase].
    rewrite toLowerCaseUnit_idempotent, toLowerCase_idempotent. reflexivity.
  - intros ->. destruct (SearchParams.name p) as [[|c n]|]; try reflexivity.
    destruct (AgentSummary.name agent) as [own|]; [|reflexivity].
    cbn [option_map]. rewrite toLowerCase_idempotent. reflexivity.
Qed.

Lemma X10_name_test_ignores_case_witness :
  rejects_name (byName "alpha") (agentNamed "Alpha Bot" None None)
  = rejects_name (byName "ALPHA") (agentNamed "Alpha Bot" None None)
  /\ rejects_name (byName "ALPHA") (agentNamed "Alpha Bot" None None) = false.
Proof.
  split; [|reflexivity].
  apply (proj1 (X10_name_test_ignores_case (byName "ALPHA") (byName "alpha")
                  (agentNamed "Alpha Bot" None None)
                  (agentNamed "Alpha Bot" None None))).
  reflexivity.
Defined.

(** ** Following the cursor *)

Lemma decodeCursor_String_ (n : number) : decodeCursor (Some (String_ n)) = n.
Proof.
  destruct n as [|z]; [reflexivity|].
  rewrite decodeCursor_present by apply String_nonempty.
  apply parseInt_String_.
Qed.

(** X11: when the offset decoded from the cursor and the page size are safe
    integers, as is their sum, the nextCursor of a page is the decimal text
    of the offset of this call plus the page size, it decodes to that sum,
    and a call with that cursor asks the subgraph for the records at that
    offset. When the offset of this call is NaN, the nextCursor is "NaN" and
    decodes to NaN again. *)
Theorem X11_nextCursor_decodes_to_the_next_offset
    (normalizeAddress : string -> string) (client : SubgraphClient)
    (params : option SearchParams) (pageSize : Z) (cursor : option string)
    (page : Page) (c : string) :
  fst (run (searchAgents normalizeAddress (configured client) params pageSize cursor))
  = Return page ->
  nextCursor page = Some c ->
  (forall off,
      decodeCursor cursor = Num off ->
      safeInteger off ->
      safeInteger pageSize ->
      safeInteger (off + pageSize) ->
      decimalText c (off + pageSize)
      /\ decodeCursor (Some c) = Num (off + pageSize)
      /\ snd (run (searchAgents normalizeAddress (configured client) params
                                pageSize (Some c)))
         = [SearchAgents (default SearchParams.empty params) (pageSize + 1)
                         (Num (off + pageSize))])
  /\ (decodeCursor cursor = NaN -> c = "NaN" /\ decodeCursor (Some c) = NaN).
Proof.
  rewrite searchAgents_run. cbn [fst].
  destruct (SubgraphClient.searchAgents client _ _ _) as [agents|e];
    [|discriminate].
  cbn zeta. intros [= <-]. cbn [nextCursor].
  destruct (pageSize <? _); [|discriminate].
  intros [= <-]. split.
  - intros off -> _ _ _. cbn [add].
    split; [apply String_decimalText|].
    assert (Hdecode : decodeCursor (Some (String_ (Num (off + pageSize))))
                      = Num (off + pageSize))
      by apply decodeCursor_String_.
    split; [exact Hdecode|].
    rewrite searchAgents_run. cbn [snd]. rewrite Hdecode. reflexivity.
  - intros ->. split; reflexivity.
Qed.

Lemma X11_nextCursor_decodes_to_the_next_offset_witness :
  decimalText "42" (40 + 2) /\ decodeCursor (Some "42") = Num (40 + 2).
Proof.
  destruct (X11_nextCursor_decodes_to_the_next_offset lowercaseAddress
              (fixedClient None [alice; bob; carol] []) None 2 (Some "40")
              {| items := [alice; bob]; nextCursor := Some "42" |} "42")
    as [Hinteger _]; [reflexivity|reflexivity|].
  destruct (Hinteger 40) as (Htext & Hdecode & _);
    [reflexivity|unfold safeInteger, MAX_SAFE_INTEGER; lia..|].
  split; [exact Htext|exact Hdecode].
Defined.

Lemma filter_length_eq {A : Type} (f : A -> bool) (l : list A) :
  length (List.filter f l) = length l -> List.filter f l = l.
Proof.
  induction l as [|x l IH]; [reflexivity|].
  cbn. destruct (f x); cbn; intros Hlen.
  - f_equal. apply IH. lia.
  - pose proof (filter_length_le f l). lia.
Qed.

(** X12: when the subgraph answers with no more than the pageSize + 1 records
    it was asked for, a page carries a nextCursor only if every record of the
    answer passed the residual filter; one record dropped by the filter and
    nextCursor is absent, whatever lies beyond the answer. *)
Theorem X12_nextCursor_needs_every_record_kept
    (normalizeAddress : string -> string) (client : SubgraphClient)
    (params : option SearchParams) (pageSize : Z) (cursor : option string)
    (agents : list AgentSummary) (page : Page) :
  let searchParams := default SearchParams.empty params in
  0 <= pageSize ->
  SubgraphClient.searchAgents client searchParams (pageSize + 1)
                              (decodeCursor cursor)
  = Return agents ->
  Z.of_nat (length agents) <= pageSize + 1 ->
  fst (run (searchAgents normalizeAddress (configured client) params pageSize cursor))
  = Return page ->
  (forall c,
      nextCursor page = Some c ->
      _filterAgents normalizeAddress agents searchParams = agents
      /\ Z.of_nat (length agents) = pageSize + 1
      /\ items page = take (Z.to_nat pageSize) agents)
  /\ (forall r,
        In r agents -> keeps normalizeAddress searchParams r = false ->
        nextCursor page = None).
Proof.
  intros searchParams Hsize Hfetch Hlimit.
  rewrite searchAgents_run. fold searchParams. rewrite Hfetch. cbn [fst].
  cbn zeta. intros [= <-]. cbn [items nextCursor].
  pose proof (sublist_length _ _
                (filterAgents_sublist normalizeAddress agents searchParams))
    as Hle.
  assert (Hfull : pageSize
                  < Z.of_nat (length (_filterAgents normalizeAddress agents
                                        searchParams)) ->
                  _filterAgents normalizeAddress agents searchParams = agents).
  { intros Hmore. apply filter_length_eq. unfold _filterAgents in *. lia. }
  destruct (Z.ltb_spec pageSize
              (Z.of_nat (length (_filterAgents normalizeAddress agents
                                   searchParams)))) as [Hmore|Hfew].
  - pose proof (Hfull Hmore) as Hall. split.
    + intros c _. split; [exact Hall|]. rewrite Hall in *.
      split; [lia|]. apply slice0_take. lia.
    + intros r Hin Hrejected. exfalso.
      rewrite <- Hall in Hin. apply filterAgents_keeps in Hin.
      destruct Hin as [_ Hkept]. congruence.
  - split; [discriminate|reflexivity].
Qed.

Lemma X12_nextCursor_needs_every_record_kept_witness :
  nextCursor {| items := [bob; carol]; nextCursor := None |} = None.
Proof.
  refine (proj2 (X12_nextCursor_needs_every_record_kept lowercaseAddress
                   (fixedClient None [alice; bob; carol] [])
                   (Some (byEns "carol.eth")) 2 None [alice; bob; carol]
                   {| items := [bob; carol]; nextCursor := None |}
                   _ _ _ _) alice _ _).
  - lia.
  - reflexivity.
  - cbn. lia.
  - reflexivity.
  - left. reflexivity.
  - reflexivity.
Defined.

(** *** Pages over a subgraph that serves a list *)





(** ** More on searchAgentsByReputation *)

Lemma split_parts_no_colon (s : string) :
  Forall (fun part => no_colon part = true) (split ":" s).
Proof.
  induction s as [|c s IH]; [repeat constructor|].
  cbn [split]. destruct (Ascii.eqb c ":") eqn:Hc.
  - constructor; [reflexivity|exact IH].
  - destruct (split ":" s) as [|h t]; [repeat constructor; cbn; rewrite Hc;
                                        reflexivity|].
    inversion IH as [|? ? Hh Ht]; subst.
    constructor; [|exact Ht]. cbn. rewrite Hc, Hh. reflexivity.
Qed.

Lemma or_else_cases (o : option string) (d : string) :
  or_else o d = d \/ (o = Some (or_else o d) /\ or_else o d <> "").
Proof.
  destruct o as [[|c r]|]; [left; reflexivity| |left; reflexivity].
  right. split; [reflexivity|discriminate].
Qed.

(** X14: the orderBy and orderDirection that searchAgentsByReputation sends
    to the subgraph are never empty and never contain a ':', whatever the
    sort parameter holds. *)
Theorem X14_sort_keys_are_never_empty (sort : list string) :
  fst (parseSort sort) <> ""
  /\ snd (parseSort sort) <> ""
  /\ no_colon (fst (parseSort sort)) = true
  /\ no_colon (snd (parseSort sort)) = true.
Proof.
  destruct sort as [|entry more]; [repeat split; discriminate|].
  unfold parseSort. cbn [fst snd].
  pose proof (split_parts_no_colon entry) as Hparts.
  rewrite Forall_lookup in Hparts.
  destruct (or_else_cases (split ":" entry !! 0%nat) "createdAt")
    as [-> | [Hby Hby']];
    destruct (or_else_cases (split ":" entry !! 1%nat) "desc")
      as [-> | [Hdirection Hdirection']];
    repeat split; try discriminate; try assumption; try reflexivity;
    first [exact (Hparts _ _ Hby) | exact (Hparts _ _ Hdirection)].
Qed.

(** X15: when searchAgentsByReputation returns a nextCursor, the page is full
    (it has first items); and when skip and skip + first are safe integers,
    the cursor is the decimal text of skip + first and reads back, with
    parseInt, as skip + first: the skip of the next page. *)
Theorem X15_reputation_cursor_is_the_next_skip
    (normalizeAddress : string -> string) (client : SubgraphClient)
    (agents tags reviewers capabilities skills tasks names : option (list string))
    (minAverageScore : option Score) (includeRevoked : bool)
    (first skip : Z) (sort : list string) (page : Page) (c : string) :
  fst (run (searchAgentsByReputation normalizeAddress (configured client)
              agents tags reviewers capabilities skills tasks names
              minAverageScore includeRevoked first skip sort))
  = Return page ->
  nextCursor page = Some c ->
  Z.of_nat (length (items page)) = first
  /\ (safeInteger skip ->
      safeInteger (skip + first) ->
      decimalText c (skip + first) /\ parseInt c = Num (skip + first)).
Proof.
  rewrite searchAgentsByReputation_run. cbn zeta. cbn [fst].
  destruct (SubgraphClient.searchAgentsByReputation client _) as [agentsData|e];
    [|discriminate].
  intros [= <-]. cbn [items nextCursor]. rewrite length_map.
  destruct (Z.eqb_spec (Z.of_nat (length agentsData)) first) as [Hfull|];
    [|discriminate].
  intros [= <-]. split; [exact Hfull|].
  intros _ _. rewrite Hfull.
  split; [apply String_decimalText|apply parseInt_String_].
Qed.

Lemma X15_reputation_cursor_is_the_next_skip_witness :
  decimalText "12" (10 + 2) /\ parseInt "12" = Num (10 + 2).
Proof.
  destruct (X15_reputation_cursor_is_the_next_skip lowercaseAddress
              (fixedClient None []
                 [recordWithChain (Some (Str "1")) None;
                  recordWithChain (Some (Number (Num 8453))) None])
              None None None None None None None None false 2 10
              ["createdAt:desc"]
              {| items :=
                   List.map (toAgentSummary lowercaseAddress)
                     [recordWithChain (Some (Str "1")) None;
                      recordWithChain (Some (Number (Num 8453))) None];
                 nextCursor := Some "12" |} "12")
    as [_ Hcursor]; [reflexivity|reflexivity|].
  apply Hcursor; unfold safeInteger, MAX_SAFE_INTEGER; lia.
Defined.

(** X16: the items of a reputation page are the records of the subgraph's
    answer, one for one and in the same order: the item at each position is
    the summary of the record at that position, and carries its id (or the
    empty string when the record has none). Nothing is filtered out or cut
    off. *)
Theorem X16_reputation_items_follow_the_answer
    (normalizeAddress : string -> string) (client : SubgraphClient)
    (agents tags reviewers capabilities skills tasks names : option (list string))
    (minAverageScore : option Score) (includeRevoked : bool)
    (first skip : Z) (sort : list string) (page : Page)
    (agentsData : list ReputationAgent) :
  SubgraphClient.searchAgentsByReputation client
    (reputationQuery agents tags reviewers capabilities skills tasks names
                     minAverageScore includeRevoked first skip
                     (fst (parseSort sort)) (snd (parseSort sort)))
  = Return agentsData ->
  fst (run (searchAgentsByReputation normalizeAddress (configured client)
              agents tags reviewers capabilities skills tasks names
              minAverageScore includeRevoked first skip sort))
  = Return page ->
  (forall i,
      items page !! i = option_map (toAgentSummary normalizeAddress) (agentsData !! i))
  /\ List.map AgentSummary.agentId (items page)
     = List.map (fun record => or_else (ReputationAgent.id record) "") agentsData.
Proof.
  intros Hfetch. rewrite searchAgentsByReputation_run. cbn zeta.
  rewrite Hfetch. cbn [fst]. intros [= <-]. cbn [items]. split.
  - intros i. apply (list_lookup_fmap (toAgentSummary normalizeAddress)).
  - rewrite List.map_map. reflexivity.
Qed.

Lemma X16_reputation_items_follow_the_answer_witness :
  List.map AgentSummary.agentId
    (List.map (toAgentSummary lowercaseAddress)
       [recordWithChain (Some (Str "1")) None])
  = ["1:7"].
Proof.
  refine (proj2 (X16_reputation_items_follow_the_answer lowercaseAddress
                   (fixedClient None [] [recordWithChain (Some (Str "1")) None])
                   None None None None None None None None false 50 0
                   ["createdAt:desc"]
                   {| items :=
                        List.map (toAgentSummary lowercaseAddress)
                          [recordWithChain (Some (Str "1")) None];
                      nextCursor := None |}
                   [recordWithChain (Some (Str "1")) None] _ _));
    reflexivity.
Defined.

(** ** The shape of a normalized reputation record *)

Lemma or_undefined_not_empty (o : option string) : or_undefined o <> Some "".
Proof. destruct o as [[|c r]|]; discriminate. Qed.

(** X17: every summary built from a reputation record has a name and all
    five capability lists present, has image, ens and did absent rather than
    empty, has at most one owner and as many operators as the record. A
    record without a registration file gives a summary with an empty name
    and description, no wallet, all five lists empty and all four flags
    false. *)
Theorem X17_summary_shape
    (normalizeAddress : string -> string) (agent : ReputationAgent) :
  let summary := toAgentSummary normalizeAddress agent in
  (exists name, AgentSummary.name summary = Some name)
  /\ (exists l1 l2 l3 l4 l5,
        AgentSummary.supportedTrusts summary = Some l1
        /\ AgentSummary.a2aSkills summary = Some l2
        /\ AgentSummary.mcpTools summary = Some l3
        /\ AgentSummary.mcpPrompts summary = Some l4
        /\ AgentSummary.mcpResources summary = Some l5)
  /\ AgentSummary.image summary <> Some ""
  /\ AgentSummary.ens summary <> Some ""
  /\ AgentSummary.did summary <> Some ""
  /\ (length (AgentSummary.owners summary) <= 1)%nat
  /\ length (AgentSummary.operators summary)
     = length (default [] (ReputationAgent.operators agent))
  /\ (ReputationAgent.registrationFile agent = None ->
      AgentSummary.name summary = Some ""
      /\ AgentSummary.description summary = ""
      /\ AgentSummary.walletAddress summary = None
      /\ AgentSummary.supportedTrusts summary = Some []
      /\ AgentSummary.a2aSkills summary = Some []
      /\ AgentSummary.mcpTools summary = Some []
      /\ AgentSummary.mcpPrompts summary = Some []
      /\ AgentSummary.mcpResources summary = Some []
      /\ AgentSummary.mcp summary = false
      /\ AgentSummary.a2a summary = false
      /\ AgentSummary.active summary = false
      /\ AgentSummary.x402support summary = false).
Proof.
  intros summary. subst summary. unfold toAgentSummary.
  cbn [AgentSummary.name AgentSummary.supportedTrusts AgentSummary.a2aSkills
       AgentSummary.mcpTools AgentSummary.mcpPrompts AgentSummary.mcpResources
       AgentSummary.image AgentSummary.ens AgentSummary.did AgentSummary.owners
       AgentSummary.operators AgentSummary.description
       AgentSummary.walletAddress AgentSummary.mcp AgentSummary.a2a
       AgentSummary.active AgentSummary.x402support].
  split; [eauto|]. split; [eauto 10|].
  split; [apply or_undefined_not_empty|].
  split; [apply or_undefined_not_empty|].
  split; [apply or_undefined_not_empty|].
  split; [destruct (ReputationAgent.owner agent) as [[|c r]|]; cbn; lia|].
  split; [apply length_map|].
  intros ->. repeat split.
Qed.

Lemma X17_summary_shape_witness :
  AgentSummary.active
    (toAgentSummary lowercaseAddress (recordWithChain (Some (Str "1")) None))
  = false
  /\ AgentSummary.mcpResources
       (toAgentSummary lowercaseAddress (recordWithChain (Some (Str "1")) None))
     = Some [].
Proof.
  destruct (X17_summary_shape lowercaseAddress
              (recordWithChain (Some (Str "1")) None))
    as (_ & _ & _ & _ & _ & _ & _ & Hbare).
  destruct Hbare as (_ & _ & _ & _ & _ & _ & _ & Hresources & _ & _ & Hactive & _);
    [reflexivity|].
  split; [exact Hactive|exact Hresources].
Defined.

(** X18: when normalizeAddress is idempotent, the owners, the operators and
    the walletAddress of a summary built from a reputation record are in
    canonical form (normalizing them again changes nothing), and the summary
    passes the residual walletAddress test for the wallet text the record
    came with. *)
Theorem X18_summary_addresses_are_canonical
    (normalizeAddress : string -> string) (agent : ReputationAgent) :
  (forall address, normalizeAddress (normalizeAddress address)
                   = normalizeAddress address) ->
  let summary := toAgentSummary normalizeAddress agent in
  Forall (fun address => normalizeAddress address = address)
         (AgentSummary.owners summary)
  /\ Forall (fun address => normalizeAddress address = address)
            (AgentSummary.operators summary)
  /\ (forall wallet,
        AgentSummary.walletAddress summary = Some wallet ->
        normalizeAddress wallet = wallet)
  /\ (forall file wallet,
        ReputationAgent.registrationFile agent = Some file ->
        RegistrationFile.agentWallet file = Some wallet ->
        rejects_address normalizeAddress (Some wallet)
                        (AgentSummary.walletAddress summary) = false).
Proof.
  intros Hidem summary. subst summary. unfold toAgentSummary.
  cbn [AgentSummary.owners AgentSummary.operators AgentSummary.walletAddress].
  split; [|split; [|split]].
  - destruct (ReputationAgent.owner agent) as [[|c r]|]; repeat constructor.
    apply Hidem.
  - apply List.Forall_map.
    induction (default [] (ReputationAgent.operators agent)); constructor;
      [apply Hidem|assumption].
  - intros wallet.
    destruct (field RegistrationFile.agentWallet
                (ReputationAgent.registrationFile agent)) as [[|c r]|];
      try discriminate.
    intros [= <-]. apply Hidem.
  - intros file wallet -> Hwallet. cbn [field]. rewrite Hwallet.
    destruct wallet as [|c r]; [reflexivity|].
    cbn [rejects_address].
    destruct (normalizeAddress (String c r)) as [|d s] eqn:Hnorm; [reflexivity|].
    rewrite <- Hnorm, Hidem. rewrite String.eqb_refl. reflexivity.
Qed.

Lemma X18_summary_addresses_are_canonical_witness :
  Forall (fun address => lowercaseAddress address = address)
         (AgentSummary.owners (toAgentSummary lowercaseAddress ownedRecord))
  /\ rejects_address lowercaseAddress (Some "0xABCDEF")
       (AgentSummary.walletAddress (toAgentSummary lowercaseAddress ownedRecord))
     = false.
Proof.
  destruct (X18_summary_addresses_are_canonical lowercaseAddress ownedRecord
              toLowerCase_idempotent) as (Howners & _ & _ & Hwallet).
  split; [exact Howners|].
  eapply Hwallet; reflexivity.
Defined.
